(** * btu_scheduler_py: cron normalisation, cron evaluation, queue job
    records and dispatch.

  A shallow embedding of [btu_py/lib/btu_cron.py], [btu_py/lib/btu_rq.py]
  and [btu_py/lib/structs/__init__.py], and the properties of the
  specification that are stated about them. *)

From Stdlib Require Import ZArith Lia Ascii String List Bool.
From stdpp Require Import base option list strings pretty gmap.

#[local] Arguments String.append !_ _ / : simpl nomatch.

(** ** Python exceptions and results *)

(** The exception classes that the modelled code raises, or that the
  libraries it calls raise into it. *)
Inductive exn : Type :=
| ValueError (msg : string)
| IndexError
| TypeError
| IOError (arg : string)
| AttributeError (msg : string)
| RuntimeError (msg : string)
| ZoneInfoNotFoundError (key : string)
| NoSuchJobError (job_id : string)
| ResponseError (msg : string)
| JSONDecodeError
| LibraryError (origin : string).

Inductive result (A : Type) : Type :=
| Ok (a : A)
| Raise (e : exn).
Arguments Ok {A} a.
Arguments Raise {A} e.

Definition rbind {A B} (r : result A) (k : A -> result B) : result B :=
match r with
| Ok a => k a
| Raise e => Raise e
end.

Declare Scope result_scope.
Delimit Scope result_scope with result.
Notation "x <- r ;; k" := (rbind r (fun x => k))
(at level 100, r at next level, right associativity) : result_scope.

Definition is_ok {A} (r : result A) : bool :=
match r with Ok _ => true | Raise _ => false end.

(** ** Python [str] operations used by the cron code

  A [str] is modelled as a [string] whose characters are the code points
  below 256. *)
Module PyStr.

(** [str.isspace] on one character: the code points below 256 that
    Python treats as whitespace. *)
Definition isspace (c : ascii) : bool :=
  let n := N_of_ascii c in
  (((9 <=? n) && (n <=? 13)) || ((28 <=? n) && (n <=? 32))
   || (n =? 133) || (n =? 160))%N.

Fixpoint lstrip (s : string) : string :=
  match s with
  | EmptyString => EmptyString
  | String c r => if isspace c then lstrip r else s
  end.

Fixpoint rstrip (s : string) : string :=
  match s with
  | EmptyString => EmptyString
  | String c r =>
      match rstrip r with
      | EmptyString => if isspace c then EmptyString else String c EmptyString
      | r' => String c r'
      end
  end.

(** [s.strip()] *)
Definition strip (s : string) : string := rstrip (lstrip s).

(** [s.split(sep)] for a one-character separator: every occurrence of
    the separator cuts, so empty pieces are kept and the result is never
    the empty list. *)
Fixpoint split (sep : ascii) (s : string) : list string :=
  match s with
  | EmptyString => [EmptyString]
  | String c r =>
      if Ascii.eqb c sep then EmptyString :: split sep r
      else match split sep r with
           | h :: t => String c h :: t
           | [] => [String c EmptyString]
           end
  end.

(** [sep.join(l)] for a one-character separator. *)
Fixpoint join (sep : ascii) (l : list string) : string :=
  match l with
  | [] => EmptyString
  | [x] => x
  | x :: r => x +:+ String sep (join sep r)
  end.

(** Number of occurrences of a character. *)
Fixpoint count (c : ascii) (s : string) : nat :=
  match s with
  | EmptyString => 0
  | String d r => (if Ascii.eqb d c then 1 else 0) + count c r
  end.

(** [l[i]]: indexing a list raises [IndexError] out of range. *)
Definition index {A} (l : list A) (i : nat) : result A :=
  match l !! i with
  | Some x => Ok x
  | None => Raise IndexError
  end.

(** Truthiness of a [str]. *)
Definition truthy (s : string) : bool :=
  match s with EmptyString => false | _ => true end.

End PyStr.

(** ** btu_py/lib/btu_cron.py: the cron normaliser *)
Module Cron.
Import PyStr.

(** [CronStruct]: seven fields, each a [str] or [None]. *)
Record CronStruct : Type := mkCronStruct {
  second : option string;
  minute : option string;
  hour : option string;
  day_of_month : option string;
  month : option string;
  day_of_week : option string;
  year : option string
}.

(** [value if value else '*'] *)
Definition value_or_wildcard (value : option string) : string :=
  match value with
  | Some v => if truthy v then v else "*"
  | None => "*"
  end.

(** [None if element == "*" else element] *)
Definition nonwildcard_or_none (element : string) : option string :=
  if String.eqb element "*" then None else Some element.

Definition to_string (c : CronStruct) : string :=
  value_or_wildcard (minute c) +:+ " " +:+
  value_or_wildcard (hour c) +:+ " " +:+
  value_or_wildcard (day_of_month c) +:+ " " +:+
  value_or_wildcard (month c) +:+ " " +:+
  value_or_wildcard (day_of_week c).

Definition to_string7 (c : CronStruct) : string :=
  value_or_wildcard (second c) +:+ " " +:+
  value_or_wildcard (minute c) +:+ " " +:+
  value_or_wildcard (hour c) +:+ " " +:+
  value_or_wildcard (day_of_month c) +:+ " " +:+
  value_or_wildcard (month c) +:+ " " +:+
  value_or_wildcard (day_of_week c) +:+ " " +:+
  value_or_wildcard (year c).

(** [cron_expression_string.strip().split(" ")] *)
Definition cron_elements (cron_expression_string : string) : list string :=
  split " " (strip cron_expression_string).

Definition wrong_quantity (n : nat) (cron_expression_string : string) : string :=
  "Wrong quantity of elements (" +:+ pretty n +:+
  ") found in cron_expression_string '" +:+ cron_expression_string +:+ "'".

(** The elements are counted on the stripped string; the returned
    expression is built from the string as it was passed. *)
Definition cron_str_to_cron_str7 (cron_expression_string : string) : result string :=
  match length (cron_elements cron_expression_string) with
  | 5 => Ok ("0 " +:+ cron_expression_string +:+ " *")
  | 6 => Ok ("0 " +:+ cron_expression_string)
  | 7 => Ok cron_expression_string
  | n => Raise (ValueError (wrong_quantity n cron_expression_string))
  end.

Definition from_string (cron_string : string) : result CronStruct :=
  (cron7_expression <- cron_str_to_cron_str7 cron_string ;;
   let vector_cron7 := split " " cron7_expression in
   e0 <- index vector_cron7 0 ;;
   e1 <- index vector_cron7 1 ;;
   e2 <- index vector_cron7 2 ;;
   e3 <- index vector_cron7 3 ;;
   e4 <- index vector_cron7 4 ;;
   e5 <- index vector_cron7 5 ;;
   e6 <- index vector_cron7 6 ;;
   Ok {| second := nonwildcard_or_none e0;
         minute := nonwildcard_or_none e1;
         hour := nonwildcard_or_none e2;
         day_of_month := nonwildcard_or_none e3;
         month := nonwildcard_or_none e4;
         day_of_week := nonwildcard_or_none e5;
         year := nonwildcard_or_none e6 |})%result.

End Cron.

Import PyStr Cron.

(** ** Notions used to state the properties of the normaliser *)

(** What [from_string] builds from the pieces of the 7-element string. *)
Definition cronstruct_of_vector (vector_cron7 : list string) : result CronStruct :=
  (e0 <- index vector_cron7 0 ;;
   e1 <- index vector_cron7 1 ;;
   e2 <- index vector_cron7 2 ;;
   e3 <- index vector_cron7 3 ;;
   e4 <- index vector_cron7 4 ;;
   e5 <- index vector_cron7 5 ;;
   e6 <- index vector_cron7 6 ;;
   Ok (mkCronStruct (nonwildcard_or_none e0) (nonwildcard_or_none e1)
         (nonwildcard_or_none e2) (nonwildcard_or_none e3)
         (nonwildcard_or_none e4) (nonwildcard_or_none e5)
         (nonwildcard_or_none e6)))%result.

(** The three accepted counts, as the [match] of
    [cron_str_to_cron_str7] has them. *)
Definition accepted (n : nat) : bool :=
  match n with
  | 5 | 6 | 7 => true
  | _ => false
  end.

(** Every character is whitespace: the strings that [strip] empties. *)
Fixpoint blank (s : string) : bool :=
  match s with
  | EmptyString => true
  | String c r => isspace c && blank r
  end.

(** The fields of an input as a reader of cron expressions counts them:
    the maximal runs of characters that are not whitespace, which is
    what [str.split()] without a separator returns. *)
Fixpoint fields_from (current s : string) : list string :=
  match s with
  | EmptyString => if truthy current then [current] else []
  | String c r =>
      if isspace c
      then (if truthy current then current :: fields_from EmptyString r
            else fields_from EmptyString r)
      else fields_from (current +:+ String c EmptyString) r
  end.

Definition fields (s : string) : list string := fields_from EmptyString s.

(** A field: at least one character, none of them whitespace. *)
Fixpoint graphic (s : string) : bool :=
  match s with
  | EmptyString => true
  | String c r => negb (isspace c) && graphic r
  end.

Definition token (t : string) : bool := truthy t && graphic t.

(** A token: a string without the separator. *)
Definition spacefree (t : string) : Prop := count " " t = 0.

(** A field as [from_string] produces it: no space inside, and never
    the wildcard itself. *)
Definition field_ok (f : option string) : Prop :=
  forall x, f = Some x -> spacefree x /\ x <> "*".

(** All seven fields are as [from_string] produces them. *)
Definition fields_ok (c : CronStruct) : Prop :=
  field_ok (second c) /\ field_ok (minute c) /\ field_ok (hour c) /\
  field_ok (day_of_month c) /\ field_ok (month c) /\
  field_ok (day_of_week c) /\ field_ok (year c).

(** The seven rendered values of [to_string7]. *)
Definition rendered (c : CronStruct) : list string :=
  [ value_or_wildcard (second c); value_or_wildcard (minute c);
    value_or_wildcard (hour c); value_or_wildcard (day_of_month c);
    value_or_wildcard (month c); value_or_wildcard (day_of_week c);
    value_or_wildcard (year c) ].

(** A field that [to_string7] renders as itself: set to a non-empty
    string, or unset. *)
Definition nonempty_field (f : option string) : bool :=
  match f with
  | Some x => truthy x
  | None => true
  end.

(** A field whose rendering survives [strip] at either end of the
    string: unset, or holding something other than whitespace. *)
Definition solid_field (f : option string) : bool :=
  match f with
  | Some x => negb (blank x)
  | None => true
  end.

(** The structures that survive [to_string7] followed by [from_string]:
    no field is the empty string, and the two fields at the ends of the
    rendered string are not whitespace only. *)
Definition faithful (c : CronStruct) : bool :=
  solid_field (second c) && nonempty_field (minute c) &&
  nonempty_field (hour c) && nonempty_field (day_of_month c) &&
  nonempty_field (month c) && nonempty_field (day_of_week c) &&
  solid_field (year c).

(** What the re-parse yields when stripping has eaten an end of the
    rendered string: a "0" is put in front and every value moves one
    field to the right. *)
Definition shifted (c : CronStruct) : CronStruct :=
  mkCronStruct (Some "0")
    (nonwildcard_or_none (value_or_wildcard (second c)))
    (nonwildcard_or_none (value_or_wildcard (minute c)))
    (nonwildcard_or_none (value_or_wildcard (hour c)))
    (nonwildcard_or_none (value_or_wildcard (day_of_month c)))
    (nonwildcard_or_none (value_or_wildcard (month c)))
    (nonwildcard_or_none (value_or_wildcard (day_of_week c))).

(** ** btu_py/lib/btu_cron.py: the cron evaluator

    [croniter], [zoneinfo] and [temporal_lib] are third-party packages:
    the evaluator is parameterised by them. Log output is collected in a
    list threaded through the computation. *)
Module Evaluator.
Section Defs.

(** Aware datetimes, naive datetimes and [ZoneInfo] objects. *)
Context {DateTime Naive TZ : Type}.

(** [ZoneInfo(key)], which raises for an unknown key. *)
Variable ZoneInfo : string -> result TZ.

(** [DateTimeType.now(tz)] *)
Variable now : TZ -> DateTime.

(** [croniter(expr, start)] and [iterator.get_next(DateTimeType)], which
    advances the iterator. *)
Context {CronIter : Type}.
Variable croniter : string -> DateTime -> result CronIter.
Variable get_next : CronIter -> result (DateTime * CronIter).

(** [temporal_lib.core] and [datetime.astimezone]. *)
Variable make_datetime_naive : DateTime -> result Naive.
Variable localize_datetime : Naive -> TZ -> result DateTime.
Variable astimezone : DateTime -> TZ -> DateTime.

(** [d.date().day] and [str(d)]. *)
Variable date_day : DateTime -> Z.
Variable str_datetime : DateTime -> string.

(** [get_config().data.time_zone_string] *)
Variable time_zone_string : string.

(** A computation that may raise and that appends to the debug log. *)
Definition M (A : Type) : Type := list string -> result A * list string.

Definition ret {A} (a : A) : M A := fun log => (Ok a, log).

Definition bind {A B} (m : M A) (k : A -> M B) : M B :=
  fun log =>
    match m log with
    | (Ok a, log') => k a log'
    | (Raise e, log') => (Raise e, log')
    end.

Definition lift {A} (r : result A) : M A := fun log => (r, log).

Definition raise {A} (e : exn) : M A := fun log => (Raise e, log).

Definition debug (msg : string) : M unit := fun log => (Ok tt, log ++ [msg]).

(** The [cron_timezone] argument: [None], a [str] or a [ZoneInfo]. *)
Inductive tz_arg : Type :=
  | TzNone
  | TzStr (key : string)
  | TzZone (z : TZ).

(** The [from_utc_datetime] argument: [None], a datetime, or an object of
    another type, of which only the truth value matters. *)
Inductive dt_arg : Type :=
  | DtNone
  | DtDateTime (d : DateTime)
  | DtOther (truth : bool).

(** [AppConfig.timezone] *)
Definition config_timezone : result TZ := ZoneInfo time_zone_string.

(** Lines 135-138: the effective timezone. *)
Definition resolve_timezone (cron_timezone : tz_arg) : result TZ :=
  match cron_timezone with
  | TzNone => config_timezone
  | TzStr key => if truthy key then ZoneInfo key else config_timezone
  | TzZone z => Ok z
  end.

(** Lines 140-143: the reference instant. *)
Definition resolve_reference (from_utc_datetime : dt_arg) : result DateTime :=
  match from_utc_datetime with
  | DtNone => (utc <- ZoneInfo "UTC" ;; Ok (now utc))%result
  | DtDateTime d => Ok d
  | DtOther true => Raise TypeError
  | DtOther false => (utc <- ZoneInfo "UTC" ;; Ok (now utc))%result
  end.

(** [[iterator.get_next(DateTimeType) for each in range(n)]] *)
Fixpoint get_nexts (iterator : CronIter) (n : nat) : result (list DateTime) :=
  match n with
  | O => Ok []
  | S k =>
      (r <- get_next iterator ;;
       rest <- get_nexts (snd r) k ;;
       Ok (fst r :: rest))%result
  end.

(** Lines 154-155: the recurrence calculator, seeded with the reference
    instant and asked for [number_of_results] successive matches. *)
Definition calculator_output (expr : string) (start : DateTime)
    (number_of_results : Z) : result (list DateTime) :=
  (iterator <- croniter expr start ;;
   get_nexts iterator (Z.to_nat number_of_results))%result.

Definition day_differs_message (utc_datetime new_utc_datetime : DateTime) : string :=
  "Original and new 'utc_datetime' fall on different days (" +:+
  str_datetime utc_datetime +:+ " vs " +:+ str_datetime new_utc_datetime +:+ ")".

(** Lines 176-189: the loop over [result_datetimes], appending to
    [modified_results]. *)
Fixpoint localize_loop (cron_timezone : TZ) (result_datetimes : list DateTime)
    (modified_results : list DateTime) : M (list DateTime) :=
  match result_datetimes with
  | [] => ret modified_results
  | utc_datetime :: rest =>
      bind (lift (make_datetime_naive utc_datetime)) (fun naive_datetime =>
      bind (lift (localize_datetime naive_datetime cron_timezone)) (fun tz_aware =>
      bind (lift (ZoneInfo "UTC")) (fun utc =>
      let new_utc_datetime := astimezone tz_aware utc in
      let modified_results := modified_results ++ [new_utc_datetime] in
      bind (if Z.eqb (date_day utc_datetime) (date_day new_utc_datetime)
            then ret tt
            else debug (day_differs_message utc_datetime new_utc_datetime))
        (fun _ => localize_loop cron_timezone rest modified_results))))
  end.

(** [isinstance(hour, NoneType) or hour == "*"] *)
Definition hour_is_wildcard (c : CronStruct) : bool :=
  match hour c with
  | None => true
  | Some h => String.eqb h "*"
  end.

Definition tz_cron_to_utc_datetimes (cron_expression_string : string)
    (cron_timezone : tz_arg) (from_utc_datetime : dt_arg)
    (number_of_results : Z) (cron_is_utc : bool) : M (list DateTime) :=
  bind (lift (resolve_timezone cron_timezone)) (fun cron_timezone =>
  bind (lift (resolve_reference from_utc_datetime)) (fun from_utc_datetime =>
  bind (lift (from_string cron_expression_string)) (fun this_cronstruct =>
  bind (lift (calculator_output (to_string this_cronstruct) from_utc_datetime
                number_of_results)) (fun result_datetimes =>
  if hour_is_wildcard this_cronstruct then ret result_datetimes
  else if cron_is_utc then ret result_datetimes
  else localize_loop cron_timezone result_datetimes [])))).

(** The three steps applied to one calculator-produced instant: strip
    the UTC marker, reinterpret the reading in the effective timezone,
    convert to UTC. *)
Definition relocalize (cron_timezone : TZ) (utc_datetime : DateTime) : result DateTime :=
  (naive_datetime <- make_datetime_naive utc_datetime ;;
   tz_aware <- localize_datetime naive_datetime cron_timezone ;;
   utc <- ZoneInfo "UTC" ;;
   Ok (astimezone tz_aware utc))%result.

(** Element-wise image of a list under a step that may raise: the images
    in order, or the first exception. *)
Fixpoint map_result {A B} (f : A -> result B) (l : list A) : result (list B) :=
  match l with
  | [] => Ok []
  | x :: r => (y <- f x ;; ys <- map_result f r ;; Ok (y :: ys))%result
  end.

End Defs.

(** Instant [u] shows reading [w] on the wall clock of [tz]. *)
Definition shows {TZ : Type} (offset_at : TZ -> Z -> Z) (tz : TZ) (u w : Z) : Prop :=
  (u + offset_at tz u = w)%Z.

(** [w] names an existing, unambiguous local time of [tz]: exactly one
    instant shows it. *)
Definition regular {TZ : Type} (offset_at : TZ -> Z -> Z) (tz : TZ) (w : Z) : Prop :=
  exists u, shows offset_at tz u w /\ forall u', shows offset_at tz u' w -> u' = u.

(** The debug lines of the loop for a calculator output and its images:
    one for every position where the day of the month differs. *)
Definition day_messages {DateTime : Type} (date_day : DateTime -> Z)
    (str_datetime : DateTime -> string) (raw out : list DateTime) : list string :=
  flat_map
    (fun p => if Z.eqb (date_day (fst p)) (date_day (snd p)) then []
              else [day_differs_message str_datetime (fst p) (snd p)])
    (combine raw out).

End Evaluator.

(** ** A concrete calendar

    An instance of the library parameters on which the statements above
    can be run: instants and readings are seconds since the epoch, a zone
    has one change of offset, and the calculator knows the daily schedule
    at 09:00. *)
Module Calendar.

Local Open Scope Z_scope.

Record zone : Type := mkZone {
  switch : Z;
  before : Z;
  after : Z
}.

Record datetime : Type := mkDateTime {
  wall : Z;
  tzinfo : zone
}.

(** Offset in force at an instant. *)
Definition offset_at (z : zone) (u : Z) : Z :=
  if u <? switch z then before z else after z.

(** Offset of a wall-clock reading: readings in a gap take the offset
    from before the change, readings in an overlap the first of the two. *)
Definition utcoffset (z : zone) (w : Z) : Z :=
  if w <? switch z + Z.max (before z) (after z) then before z else after z.

Definition utc : zone := mkZone 0 0 0.

(** Pacific time around the change of 2025-03-09T10:00:00Z. *)
Definition los_angeles : zone := mkZone 1741514400 (-28800) (-25200).

Definition ZoneInfo (key : string) : result zone :=
  if String.eqb key "UTC" then Ok utc
  else if String.eqb key "America/Los_Angeles" then Ok los_angeles
  else Raise (ZoneInfoNotFoundError key).

Definition instant (d : datetime) : Z := wall d - utcoffset (tzinfo d) (wall d).

Definition astimezone (d : datetime) (z : zone) : datetime :=
  mkDateTime (instant d + offset_at z (instant d)) z.

Definition make_datetime_naive (d : datetime) : result Z := Ok (wall d).

Definition localize_datetime (n : Z) (z : zone) : result datetime :=
  Ok (mkDateTime n z).

(** The clock of the example: 2025-03-22T17:01:00Z. *)
Definition now (z : zone) : datetime :=
  mkDateTime (1742662860 + offset_at z 1742662860) z.

(** The calculator: the next 09:00 on the clock it is given. *)
Definition croniter (expr : string) (start : datetime) : result Z :=
  if String.eqb expr "0 9 * * *" then Ok (wall start)
  else Raise (LibraryError "croniter").

Definition get_next (t : Z) : result (datetime * Z) :=
  let t' := ((t - 32400) / 86400 + 1) * 86400 + 32400 in
  Ok (mkDateTime t' utc, t').

(** Day of the month of a reading (civil date from a day count). *)
Definition date_day (d : datetime) : Z :=
  let z := wall d / 86400 + 719468 in
  let era := z / 146097 in
  let doe := z - era * 146097 in
  let yoe := (doe - doe / 1460 + doe / 36524 - doe / 146096) / 365 in
  let doy := doe - (365 * yoe + yoe / 4 - yoe / 100) in
  let mp := (5 * doy + 2) / 153 in
  doy - (153 * mp + 2) / 5 + 1.

Definition str_datetime (d : datetime) : string := pretty (wall d).

(** The daily schedule at 09:00 and what the calculator gives for it
    from the clock of the example. *)
Definition daily_nine : CronStruct :=
  mkCronStruct (Some "0") (Some "0") (Some "9") None None None None.

Definition raw_daily_nine : list datetime :=
  [mkDateTime 1742720400 utc; mkDateTime 1742806800 utc].

(** A second calculator: the next 20:00 on the clock it is given. *)
Definition croniter_evening (expr : string) (start : datetime) : result Z :=
  if String.eqb expr "0 20 * * *" then Ok (wall start)
  else Raise (LibraryError "croniter").

Definition get_next_evening (t : Z) : result (datetime * Z) :=
  let t' := ((t - 72000) / 86400 + 1) * 86400 + 72000 in
  Ok (mkDateTime t' utc, t').

End Calendar.

(** ** btu_py/lib/btu_rq.py: the queue job record and the dispatcher

    The store is reached through [redis-py] and [rq]; what the code sends
    and what it does with the replies is modelled over an arbitrary
    server, of which Redis itself is one instance. *)
Module Rq.

(** A value held under a key. *)
Inductive value : Type :=
  | VSet (members : gset string)
  | VList (items : list string)
  | VHash (fields : gmap string string).

(** The commands that the modelled code sends. *)
Inductive command : Type :=
  | LRANGE (key : string)
  | HGETALL (key : string)
  | SADD (key member : string)
  | RPUSH (key item : string).

Inductive reply : Type :=
  | Integer (n : Z)
  | Array (items : list string)
  | Map (fields : gmap string string)
  | Error (msg : string).

Definition is_write (c : command) : bool :=
  match c with
  | SADD _ _ | RPUSH _ _ => true
  | LRANGE _ | HGETALL _ => false
  end.

Definition wrongtype : string :=
  "WRONGTYPE Operation against a key holding the wrong kind of value".

(** Redis: [SADD] answers the number of members added, [RPUSH] the length
    of the list after the push; a missing key reads as empty. *)
Definition redis (c : command) (db : gmap string value) : reply * gmap string value :=
  match c with
  | LRANGE key =>
      match db !! key with
      | None => (Array [], db)
      | Some (VList l) => (Array l, db)
      | Some _ => (Error wrongtype, db)
      end
  | HGETALL key =>
      match db !! key with
      | None => (Map ∅, db)
      | Some (VHash h) => (Map h, db)
      | Some _ => (Error wrongtype, db)
      end
  | SADD key member =>
      match db !! key with
      | None => (Integer 1, <[key := VSet {[member]}]> db)
      | Some (VSet s) =>
          if decide (member ∈ s) then (Integer 0, db)
          else (Integer 1, <[key := VSet ({[member]} ∪ s)]> db)
      | Some _ => (Error wrongtype, db)
      end
  | RPUSH key item =>
      match db !! key with
      | None => (Integer 1, <[key := VList [item]]> db)
      | Some (VList l) =>
          (Integer (Z.of_nat (length (l ++ [item]))), <[key := VList (l ++ [item])]> db)
      | Some _ => (Error wrongtype, db)
      end
  end.

(** Redis with a push step that fails: [RPUSH] stores nothing and
    acknowledges zero. *)
Definition redis_failing_push (c : command) (db : gmap string value)
    : reply * gmap string value :=
  match c with
  | RPUSH _ _ => (Integer 0, db)
  | _ => redis c db
  end.

(** Truth value of what a command returned. *)
Definition truthy_reply (r : reply) : bool :=
  match r with
  | Integer n => negb (Z.eqb n 0)
  | Array l => match l with [] => false | _ => true end
  | Map h => negb (bool_decide (h = ∅))
  | Error _ => false
  end.

(** [str] of a falsy value. *)
Definition str_falsy (r : reply) : string :=
  match r with
  | Integer _ => "0"
  | Array _ => "[]"
  | Map _ => "{}"
  | Error msg => msg
  end.

(** [repr] of a list of plain strings. *)
Definition repr_list (l : list string) : string :=
  "[" +:+ String.concat ", " (map (fun s => "'" +:+ s +:+ "'") l) +:+ "]".

(** The write commands among the exchanges, in the order sent. *)
Definition writes (l : list (command * reply)) : list command :=
  filter (fun c => is_write c = true) (map fst l).

(** The state in which the server is left by a sequence of commands. *)
Definition replay {σ : Type} (server : command -> σ -> reply * σ)
    (s : σ) (cmds : list command) : σ :=
  fold_left (fun s c => snd (server c s)) cmds s.

(** What the caller sees when the push is not acknowledged. *)
Definition push_failure (rp : reply) : exn :=
  match rp with
  | Error msg => ResponseError msg
  | _ => IOError (str_falsy rp)
  end.

(** [RQJobWrapper] *)
Record RQJobWrapper {DateTime Bytes RQJob : Type} : Type := mkRQJobWrapper {
  job_key : string;
  job_key_short : string;
  fully_qualified_key : string;
  created_at : DateTime;
  data : option Bytes;
  description : string;
  ended_at : option DateTime;
  enqueued_at : option DateTime;
  exc_info : option string;
  last_heartbeat : DateTime;
  meta : option Bytes;
  origin : string;
  result_ttl : option string;
  started_at : option string;
  status : option string;
  timeout : Z;
  worker_name : string;
  rq_job_object : option RQJob
}.
Arguments RQJobWrapper : clear implicits.

Section Client.

Context {σ DateTime : Type}.

(** The server behind the connection. *)
Variable server : command -> σ -> reply * σ.

(** [rq.job.Job.restore]: what the library makes of the hash it has read
    for a job id, the origin of the job or an exception. *)
Variable restore : string -> gmap string string -> result (option string).

(** [bool(get_config().as_dictionary())] and
    [get_config_data().jobs_site_prefix]. *)
Variable config_loaded : bool.
Variable jobs_site_prefix : string.

(** [uuid.uuid4()] and [DateTimeType.now(ZoneInfo("UTC"))]: the n-th
    identifier drawn and the n-th reading of the clock. *)
Variable uuid4 : nat -> string.
Variable now_utc : nat -> result DateTime.

(** The store, every exchange with it in order, the identifiers and clock
    readings used up, and what was printed and logged. *)
Record world : Type := mkWorld {
  store : σ;
  trace : list (command * reply);
  drawn : nat;
  ticks : nat;
  printed : list string;
  logged : list string
}.

Definition M (A : Type) : Type := world -> result A * world.

Definition ret {A} (a : A) : M A := fun w => (Ok a, w).

Definition bind {A B} (m : M A) (k : A -> M B) : M B :=
  fun w =>
    match m w with
    | (Ok a, w') => k a w'
    | (Raise e, w') => (Raise e, w')
    end.

Definition raise {A} (e : exn) : M A := fun w => (Raise e, w).

(** One round trip: the command is sent, the server answers and moves to
    its next state. [redis-py] raises on an error reply. *)
Definition call (c : command) : M reply :=
  fun w =>
    let (r, s) := server c (store w) in
    let w' := mkWorld s (trace w ++ [(c, r)]) (drawn w) (ticks w)
                (printed w) (logged w) in
    match r with
    | Error msg => (Raise (ResponseError msg), w')
    | _ => (Ok r, w')
    end.

Definition print (line : string) : M unit :=
  fun w => (Ok tt, mkWorld (store w) (trace w) (drawn w) (ticks w)
                     (printed w ++ [line]) (logged w)).

Definition log_error (msg : string) : M unit :=
  fun w => (Ok tt, mkWorld (store w) (trace w) (drawn w) (ticks w)
                     (printed w) (logged w ++ [msg])).

Definition draw_uuid : M string :=
  fun w => (Ok (uuid4 (drawn w)),
            mkWorld (store w) (trace w) (S (drawn w)) (ticks w)
              (printed w) (logged w)).

Definition read_clock : M DateTime :=
  fun w => (now_utc (ticks w),
            mkWorld (store w) (trace w) (drawn w) (S (ticks w))
              (printed w) (logged w)).

Definition create_connection : M unit :=
  if config_loaded then ret tt
  else raise (RuntimeError "Application configuration is not loaded.").

(** [registry.get_queue().job_ids]: the whole list under the queue key. *)
Definition job_ids (queue_name : string) : M reply :=
  call (LRANGE ("rq:queue:" +:+ queue_name)).

(** [rq.job.Job.fetch]: [refresh] reads the job hash; no hash, no job;
    a hash is handed to [restore]. Of the job only the origin is used. *)
Definition fetch (job_id : string) : M (option string) :=
  bind (call (HGETALL ("rq:job:" +:+ job_id))) (fun r =>
  match r with
  | Map h => if bool_decide (h = ∅) then raise (NoSuchJobError job_id)
             else match restore job_id h with
                  | Ok job_origin => ret job_origin
                  | Raise e => raise e
                  end
  | _ => raise (LibraryError "rq")
  end).

(** How an f-string shows an origin. *)
Definition str_origin (o : option string) : string :=
  match o with
  | Some s => s
  | None => "None"
  end.

Definition DEL_enqueue_job_immediate (existing_job_id : string) : M unit :=
  bind create_connection (fun _ =>
  bind (job_ids "default") (fun queued_job_ids =>
  bind (print ("queued_job_ids: " +:+
                 match queued_job_ids with
                 | Array l => repr_list l
                 | other => str_falsy other
                 end)) (fun _ =>
  bind (fetch existing_job_id) (fun this_job_origin =>
  let queue_key := "rq:queue:" +:+ str_origin this_job_origin in
  bind (call (SADD "rq:queues" queue_key)) (fun some_result =>
  if negb (truthy_reply some_result) then
    bind (log_error "Error during enqueue_job_immediate()") (fun _ =>
    raise (IOError (str_falsy some_result)))
  else
    bind (call (RPUSH queue_key existing_job_id)) (fun push_result =>
    if negb (truthy_reply push_result) then
      raise (IOError (str_falsy push_result))
    else
      (* [get_logger.info]: the attribute is looked up on the function *)
      raise (AttributeError "'function' object has no attribute 'info'"))))))).

Definition new_with_defaults {Bytes RQJob : Type}
    : M (RQJobWrapper DateTime Bytes RQJob) :=
  bind draw_uuid (fun uuid_string =>
  let new_job_key := jobs_site_prefix +:+ "|" +:+ uuid_string in
  bind read_clock (fun created =>
  bind read_clock (fun heartbeat =>
  ret {| job_key := new_job_key;
         fully_qualified_key := "rq:job:" +:+ new_job_key;
         job_key_short := uuid_string;
         created_at := created;
         description := "";
         data := None;
         ended_at := None;
         enqueued_at := None;
         exc_info := None;
         last_heartbeat := heartbeat;
         meta := None;
         origin := "default";
         result_ttl := None;
         started_at := None;
         status := Some "queued";
         timeout := 3600;
         worker_name := "";
         rq_job_object := None |}))).

End Client.

(** The list and the set under a key, a missing key reading as empty. *)
Definition list_at (db : gmap string value) (key : string) : list string :=
  match db !! key with
  | Some (VList l) => l
  | _ => []
  end.

Definition set_at (db : gmap string value) (key : string) : gset string :=
  match db !! key with
  | Some (VSet s) => s
  | _ => ∅
  end.

Definition holds_list (db : gmap string value) (key : string) : Prop :=
  db !! key = None \/ exists l, db !! key = Some (VList l).

Definition holds_set (db : gmap string value) (key : string) : Prop :=
  db !! key = None \/ exists s, db !! key = Some (VSet s).

(** [Job.restore] on the connection that [create_connection] opens, with
    [decode_responses=True]: a hash without a [data] field is refused as
    not being a job; a [data] field arrives as a [str], and
    [zlib.decompress] of a [str] raises [TypeError], which the
    [except zlib.error] around it does not catch. The payload is read
    before every other field, so no hash is restored. *)
Definition restore_decoded (job_id : string) (h : gmap string string)
    : result (option string) :=
  match h !! "data" with
  | None => Raise (NoSuchJobError job_id)
  | Some _ => Raise TypeError
  end.

(** A stand-in for a library that returns the job of every hash that has
    a payload, to run the registration and the push on Redis. *)
Definition restore_origin (job_id : string) (h : gmap string string)
    : result (option string) :=
  match h !! "data" with
  | None => Raise (NoSuchJobError job_id)
  | Some _ => Ok (h !! "origin")
  end.

(** The queue key of a stored job, as line 150 builds it. *)
Definition queue_key_of (h : gmap string string) : string :=
  "rq:queue:" +:+ str_origin (h !! "origin").

(** Two stores: one where the queue of the job is registered, one where
    it is not. *)
Definition db_known_queue : gmap string value :=
  <["rq:queues" := VSet {["rq:queue:default"]}]>
  (<["rq:job:j1" := VHash {["origin" := "default"]}]>
  (<["rq:queue:default" := VList ["j0"]]> ∅)).

Definition db_new_queue : gmap string value :=
  <["rq:queues" := VSet {["rq:queue:default"]}]>
  (<["rq:job:j2" := VHash (<["data" := "payload"]> {["origin" := "short"]})]>
  (<["rq:queue:default" := VList ["j0"]]> ∅)).

(** The first store with a job that has a payload. *)
Definition db_stored_job : gmap string value :=
  <["rq:queues" := VSet {["rq:queue:default"]}]>
  (<["rq:job:j1" := VHash (<["data" := "payload"]> {["origin" := "default"]})]>
  (<["rq:queue:default" := VList ["j0"]]> ∅)).

Definition fresh_world (db : gmap string value) : world :=
  mkWorld db [] 0 0 [] [].

(** An identifier generator and a clock. *)
Definition sample_uuid (n : nat) : string :=
  "11f83e81-83ea-4df2-aa7e-cd12d8dec7" +:+ pretty (79 + n).

Definition sample_clock (n : nat) : result Z := Ok (1742662860 + Z.of_nat n)%Z.

End Rq.

(** ** btu_py/lib/structs/__init__.py: the immediate-enqueue trigger

    [requests] is a third-party package and [get_frappe_base_url] lives
    in [btu_py.lib.utils]: both are parameters. *)
Module Structs.

(** The arguments of [requests.post]. *)
Record Request : Type := mkRequest {
  url : string;
  headers : list (string * string);
  params : list (string * string);
  request_timeout : Z
}.

(** A response: its status code, and what [response.json()] gives (the
    decoded body as an f-string shows it) or raises. *)
Record Response : Type := mkResponse {
  status_code : Z;
  json : result string
}.

Inductive log_record : Type :=
  | Debug (msg : string)
  | Info (msg : string).

Section Trigger.

(** [requests.post], which raises on a transport failure or when the
    timeout expires. *)
Variable post : Request -> result Response.

Variable frappe_base_url : string.
Variable webserver_token : string.
Variable webserver_host_header : option string.

Definition trigger_request (id : string) : Request :=
  {| url := frappe_base_url +:+
            "/api/method/btu.btu_api.endpoints.enqueue_for_next_available_worker";
     headers :=
       [("Authorization", webserver_token); ("Content-Type", "application/json")]
       ++ match webserver_host_header with
          | Some host => if truthy host then [("Host", host)] else []
          | None => []
          end;
     params := [("task_schedule_key", id)];
     request_timeout := 30 |}.

Definition unexpected_response (body : string) : string :=
  "Unexpected response code from Frappe Framework web server: " +:+ body.

(** [BtuTaskSchedule.enqueue_for_next_available_worker], for the schedule
    with the given [id]. The debug line formats [response.json()] before
    the status code is looked at. *)
Definition enqueue_for_next_available_worker (id : string)
    : result unit * list log_record :=
  match post (trigger_request id) with
  | Raise e => (Raise e, [])
  | Ok response =>
      match json response with
      | Raise e => (Raise e, [])
      | Ok body =>
          let log :=
            [Debug ("Response from Frappe to Enqueue: Status Code = " +:+
                    pretty (status_code response) +:+ ", Data = " +:+ body)] in
          if Z.eqb (status_code response) 200 then
            (Ok tt, log ++ [Info ("Successfully enqueued Task Schedule: '" +:+
                                  id +:+ "'")])
          else
            match json response with
            | Raise e => (Raise e, log)
            | Ok body => (Raise (IOError (unexpected_response body)), log)
            end
      end
  end.

End Trigger.

(** An accepted request. *)
Definition accepted_response : Response := mkResponse 200 (Ok "{'message': 'ok'}").

(** A 200 whose body is not JSON. *)
Definition undecodable_response : Response := mkResponse 200 (Raise JSONDecodeError).

End Structs.

(** ** btu_py/lib/structs/__init__.py: tasks and schedules

    The SQL reads of [btu_py.lib.sql] and the payload fetch of
    [btu_py.lib.structs.sanchez] are parameters. *)
Module Schedules.

(** [BtuTask] *)
Record BtuTask : Type := mkBtuTask {
  bt_task_key : string;
  desc_short : string;
  desc_long : string;
  arguments : option string;
  path_to_function : string;
  max_task_duration : Z
}.

(** A row of [get_task_schedule_by_id], column by column. *)
Record schedule_row : Type := mkScheduleRow {
  row_name : string;
  row_task : string;
  row_task_description : string;
  row_enabled : Z;
  row_queue_name : string;
  row_argument_overrides : option string;
  row_schedule_description : string;
  row_cron_string : string;
  row_cron_timezone : option string;
  row_run_frequency : option string
}.

(** [BtuTaskSchedule]; the timezone is held as it comes from the row. *)
Record BtuTaskSchedule : Type := mkBtuTaskSchedule {
  id : string;
  task_key : string;
  task_description : string;
  enabled : Z;
  queue_name : string;
  argument_overrides : option string;
  schedule_description : string;
  cron_string : string;
  cron_timezone : option string;
  run_frequency : string;
  redis_job_id : option string
}.

(** [x or "Cron Style"] *)
Definition or_cron_style (x : option string) : string :=
  match x with
  | Some f => if truthy f then f else "Cron Style"
  | None => "Cron Style"
  end.

Section Loading.

Variable get_task_by_id : string -> result (option BtuTask).
Variable get_task_schedule_by_id : string -> result (option schedule_row).

Definition init_from_task_key (task_key : string) : result BtuTask :=
  (task_data <- get_task_by_id task_key ;;
   match task_data with
   | None =>
       Raise (IOError ("No SQL row returned by get_task_by_id() for primary key = '"
                       +:+ task_key +:+ "'"))
   | Some row => Ok row
   end)%result.

Definition init_from_schedule_key (schedule_key : string) : result BtuTaskSchedule :=
  (schedule_data <- get_task_schedule_by_id schedule_key ;;
   match schedule_data with
   | None =>
       Raise (IOError
                ("No SQL row returned by get_task_schedule_by_id() for primary key = '"
                 +:+ schedule_key +:+ "'"))
   | Some row =>
       Ok {| id := row_name row;
             task_key := row_task row;
             task_description := row_task_description row;
             enabled := row_enabled row;
             queue_name := row_queue_name row;
             argument_overrides := row_argument_overrides row;
             schedule_description := row_schedule_description row;
             cron_string := row_cron_string row;
             cron_timezone := row_cron_timezone row;
             run_frequency := or_cron_style (row_run_frequency row);
             redis_job_id := None |}
   end)%result.

End Loading.

Section Runtimes.

Context {DateTime Naive TZ CronIter : Type}.
Variable ZoneInfo : string -> result TZ.
Variable now : TZ -> DateTime.
Variable croniter : string -> DateTime -> result CronIter.
Variable get_next : CronIter -> result (DateTime * CronIter).
Variable make_datetime_naive : DateTime -> result Naive.
Variable localize_datetime : Naive -> TZ -> result DateTime.
Variable astimezone : DateTime -> TZ -> DateTime.
Variable date_day : DateTime -> Z.
Variable str_datetime : DateTime -> string.
Variable time_zone_string : string.

(** The timezone of the schedule as the evaluator receives it. *)
Definition timezone_argument (tz : option string) : Evaluator.tz_arg (TZ := TZ) :=
  match tz with
  | Some key => Evaluator.TzStr key
  | None => Evaluator.TzNone
  end.

Definition get_next_runtimes (self : BtuTaskSchedule)
    (from_utc_datetime : Evaluator.dt_arg (DateTime := DateTime))
    (number_results : Z) : Evaluator.M (list DateTime) :=
  let cron_is_utc := negb (String.eqb (run_frequency self) "Cron Style") in
  Evaluator.tz_cron_to_utc_datetimes ZoneInfo now croniter get_next
    make_datetime_naive localize_datetime astimezone date_day str_datetime
    time_zone_string
    (cron_string self) (timezone_argument (cron_timezone self))
    from_utc_datetime number_results cron_is_utc.

End Runtimes.

Section Jobs.

Context {σ DateTime Bytes RQJob : Type}.
Variable jobs_site_prefix : string.
Variable uuid4 : nat -> string.
Variable now_utc : nat -> result DateTime.
Variable get_task_by_id : string -> result (option BtuTask).

(** [get_pickled_function_from_web(task_key, schedule_key)] *)
Variable get_pickled_function_from_web : string -> option string -> result Bytes.

Definition lift {A} (r : result A) : Rq.M (σ := σ) A := fun w => (r, w).

Definition to_rq_job_wrapper (self : BtuTaskSchedule)
    : Rq.M (σ := σ) (Rq.RQJobWrapper DateTime Bytes RQJob) :=
  Rq.bind (Rq.new_with_defaults jobs_site_prefix uuid4 now_utc) (fun wrapped_job =>
  Rq.bind (lift (init_from_task_key get_task_by_id (task_key self))) (fun task =>
  Rq.bind (lift (get_pickled_function_from_web (task_key self) (Some (id self))))
    (fun payload =>
  Rq.ret {| Rq.job_key := Rq.job_key wrapped_job;
            Rq.job_key_short := Rq.job_key_short wrapped_job;
            Rq.fully_qualified_key := Rq.fully_qualified_key wrapped_job;
            Rq.created_at := Rq.created_at wrapped_job;
            Rq.data := Some payload;
            Rq.description := task_description self;
            Rq.ended_at := Rq.ended_at wrapped_job;
            Rq.enqueued_at := Rq.enqueued_at wrapped_job;
            Rq.exc_info := Rq.exc_info wrapped_job;
            Rq.last_heartbeat := Rq.last_heartbeat wrapped_job;
            Rq.meta := Rq.meta wrapped_job;
            Rq.origin := queue_name self;
            Rq.result_ttl := Rq.result_ttl wrapped_job;
            Rq.started_at := Rq.started_at wrapped_job;
            Rq.status := Rq.status wrapped_job;
            Rq.timeout := max_task_duration task;
            Rq.worker_name := Rq.worker_name wrapped_job;
            Rq.rq_job_object := Rq.rq_job_object wrapped_job |}))).

End Jobs.
(** A schedule row for the daily run at nine, and its task. *)
Definition sample_row (frequency : option string) : schedule_row :=
  mkScheduleRow "TS-000001" "TASK-000001" "Ping" 1 "erpnext-mybench:default"
    None "Every day at 9" "0 9 * * *" (Some "America/Los_Angeles") frequency.

Definition sample_schedule : BtuTaskSchedule :=
  mkBtuTaskSchedule "TS-000001" "TASK-000001" "Ping" 1 "erpnext-mybench:default"
    None "Every day at 9" "0 9 * * *" (Some "America/Los_Angeles") "Cron Style"
    None.

Definition sample_task : BtuTask :=
  mkBtuTask "TASK-000001" "Ping" "Ping with wait" None
    "btu.manual_tests.ping_with_wait" 600.

End Schedules.

(** ** btu_py/lib/config.py: the settings that the SQL layer reads *)
Module Config.

(** A value of the configuration file. *)
Inductive setting : Type :=
  | SStr (s : string)
  | SInt (n : Z)
  | SBool (b : bool).

(** What a configuration read can raise: a missing key, or one of the
    exceptions above. *)
Inductive raised : Type :=
  | KeyError (key : string)
  | Raised (e : exn).

Inductive outcome (A : Type) : Type :=
  | Done (a : A)
  | Fails (r : raised).
Arguments Done {A} a.
Arguments Fails {A} r.

Definition obind {A B} (o : outcome A) (k : A -> outcome B) : outcome B :=
  match o with
  | Done a => k a
  | Fails r => Fails r
  end.

(** [str(value)], as an f-string shows a setting. *)
Definition str_setting (v : setting) : string :=
  match v with
  | SStr s => s
  | SInt n => pretty n
  | SBool true => "True"
  | SBool false => "False"
  end.

(** [str.lower] on the code points below 256. *)
Definition lower_char (c : ascii) : ascii :=
  let n := N_of_ascii c in
  if (((65 <=? n) && (n <=? 90))
      || ((192 <=? n) && (n <=? 222) && negb (n =? 215)))%N
  then ascii_of_N (n + 32) else c.

Fixpoint lower (s : string) : string :=
  match s with
  | EmptyString => EmptyString
  | String c r => String (lower_char c) (lower r)
  end.

(** The characters that [urllib.parse.quote] leaves alone: letters,
    digits, [_.-~], and the default safe character [/]. *)
Definition quote_safe (c : ascii) : bool :=
  let n := N_of_ascii c in
  (((65 <=? n) && (n <=? 90)) || ((97 <=? n) && (n <=? 122))
   || ((48 <=? n) && (n <=? 57))
   || (n =? 95) || (n =? 46) || (n =? 45) || (n =? 126) || (n =? 47))%N.

Definition hex_digit (n : N) : ascii :=
  if (n <? 10)%N then ascii_of_N (48 + n) else ascii_of_N (55 + n).

(** ['%{:02X}'.format(byte)] *)
Definition percent (byte : N) : string :=
  String "%" (String (hex_digit (byte / 16)) (String (hex_digit (byte mod 16)) EmptyString)).

(** The UTF-8 bytes of a code point below 256. *)
Definition utf8 (c : ascii) : list N :=
  let n := N_of_ascii c in
  if (n <? 128)%N then [n] else [(192 + n / 64)%N; (128 + n mod 64)%N].

Definition quote_char (c : ascii) : string :=
  if quote_safe c then String c EmptyString
  else String.concat EmptyString (map percent (utf8 c)).

(** [urllib.parse.quote(s)] for a [str]. *)
Fixpoint quote (s : string) : string :=
  match s with
  | EmptyString => EmptyString
  | String c r => quote_char c +:+ quote r
  end.

(** The characters of a quoted string: the ones left alone and the
    percent sign of an escape. Neither [:] nor [@] is among them. *)
Definition url_inert (c : ascii) : bool :=
  quote_safe c || Ascii.eqb c "%".

Fixpoint every (p : ascii -> bool) (s : string) : bool :=
  match s with
  | EmptyString => true
  | String c r => p c && every p r
  end.

Section Settings.

(** [AppConfig.as_dictionary()] *)
Variable as_dictionary : gmap string setting.

(** [self.as_dictionary()[key]] *)
Definition get (key : string) : outcome setting :=
  match as_dictionary !! key with
  | Some v => Done v
  | None => Fails (KeyError key)
  end.

(** [urllib.parse.quote(value)]: anything but a [str] is refused. *)
Definition quote_setting (v : setting) : outcome string :=
  match v with
  | SStr s => Done (quote s)
  | _ => Fails (Raised TypeError)
  end.

Definition get_sql_type : outcome string :=
  obind (get "sql_type") (fun v =>
  match v with
  | SStr s => Done (lower s)
  | SInt _ => Fails (Raised (AttributeError "'int' object has no attribute 'lower'"))
  | SBool _ => Fails (Raised (AttributeError "'bool' object has no attribute 'lower'"))
  end).

(** The test on the cached string never finds it ([hasattr] is asked for
    the unmangled name), so the string is built on every call. *)
Definition get_sql_connection_string : outcome string :=
  obind (obind (get "sql_user") quote_setting) (fun user =>
  obind (obind (get "sql_password") quote_setting) (fun password =>
  obind (get "sql_host") (fun host =>
  obind (get "sql_port") (fun port =>
  obind (get "sql_database") (fun database_name =>
  obind get_sql_type (fun sql_type =>
  let rest := user +:+ ":" +:+ password +:+ "@" +:+ str_setting host +:+ ":" +:+
              str_setting port +:+ "/" +:+ str_setting database_name in
  if String.eqb sql_type "postgres" then Done ("postgresql+asyncpg://" +:+ rest)
  else if String.eqb sql_type "mariadb" then Done ("mysql+asyncmy://" +:+ rest)
  else Fails (Raised (ValueError ("Unsupported sql_type: " +:+ sql_type +:+
                                  ". Supported types: 'postgres', 'mariadb'"))))))))).

End Settings.

(** A configuration for PostgreSQL. *)
Definition sample_settings : gmap string setting :=
  <["sql_type" := SStr "Postgres"]>
  (<["sql_host" := SStr "localhost"]>
  (<["sql_port" := SInt 5432]>
  (<["sql_database" := SStr "erp"]>
  (<["sql_user" := SStr "frappe"]>
  (<["sql_password" := SStr "p@ss:word/1"]> ∅))))).

End Config.

(** * Properties *)

Example from_string_5 :
from_string "*/30 * * * *"
= Ok (mkCronStruct (Some "0") (Some "*/30") None None None None None).
Proof. reflexivity. Qed.

Example from_string_empty :
from_string "" = Raise (ValueError "Wrong quantity of elements (1) found in cron_expression_string ''").
Proof. reflexivity. Qed.

(** ** Facts about [split], [strip] and [count] *)
Section StringFacts.

Lemma string_app_assoc (a b c : string) : (a +:+ b) +:+ c = a +:+ (b +:+ c).
Proof. induction a as [|x a IH]; simpl; [reflexivity | now rewrite IH]. Qed.

Lemma count_app (c : ascii) (a b : string) :
  count c (a +:+ b) = count c a + count c b.
Proof. induction a as [|x a IH]; simpl; [reflexivity | rewrite IH; lia]. Qed.

Lemma split_nonnil (sep : ascii) (s : string) : split sep s <> [].
Proof.
  induction s as [|c r IH]; simpl; [discriminate |].
  destruct (Ascii.eqb c sep); [discriminate |].
  destruct (split sep r); discriminate.
Qed.

Lemma split_length (sep : ascii) (s : string) :
  length (split sep s) = S (count sep s).
Proof.
  induction s as [|c r IH]; simpl; [reflexivity |].
  destruct (Ascii.eqb c sep); simpl; [now rewrite IH |].
  destruct (split sep r) eqn:E; simpl in *; [discriminate | exact IH].
Qed.

(** Cutting at a separator concatenates the pieces of both sides. *)
Lemma split_app_sep (sep : ascii) (a b : string) :
  split sep (a +:+ String sep b) = split sep a ++ split sep b.
Proof.
  induction a as [|c r IH]; simpl.
  - now rewrite Ascii.eqb_refl.
  - destruct (Ascii.eqb c sep); [now rewrite IH |].
    rewrite IH. pose proof (split_nonnil sep r) as Hn.
    destruct (split sep r); [contradiction | reflexivity].
Qed.

Lemma split_nosep (sep : ascii) (s : string) :
  count sep s = 0 -> split sep s = [s].
Proof.
  induction s as [|c r IH]; simpl; [reflexivity |].
  destruct (Ascii.eqb c sep); [discriminate |].
  intros H. now rewrite (IH H).
Qed.

(** No piece of a split contains the separator. *)
Lemma split_pieces_nosep (sep : ascii) (s : string) :
  Forall (fun x => count sep x = 0) (split sep s).
Proof.
  induction s as [|c r IH]; simpl.
  - constructor; [reflexivity | constructor].
  - destruct (Ascii.eqb c sep) eqn:E.
    + constructor; [reflexivity | exact IH].
    + destruct (split sep r) as [|h t]; inversion IH; subst;
        constructor; simpl; try rewrite E; auto.
Qed.

Lemma count_lstrip_le (c : ascii) (s : string) : count c (lstrip s) <= count c s.
Proof.
  induction s as [|x r IH]; simpl; [lia |].
  destruct (isspace x); simpl; lia.
Qed.

Lemma count_rstrip_le (c : ascii) (s : string) : count c (rstrip s) <= count c s.
Proof.
  induction s as [|x r IH]; simpl; [lia |].
  destruct (rstrip r) eqn:E; simpl in *.
  - destruct (isspace x); simpl; lia.
  - lia.
Qed.

Lemma count_strip_le (c : ascii) (s : string) : count c (strip s) <= count c s.
Proof.
  unfold strip. pose proof (count_rstrip_le c (lstrip s)).
  pose proof (count_lstrip_le c s). lia.
Qed.

(** Stripping never adds elements. *)
Lemma cron_elements_le (s : string) :
  length (cron_elements s) <= length (split " " s).
Proof.
  unfold cron_elements. rewrite !split_length.
  pose proof (count_strip_le " " s). lia.
Qed.

Lemma index_lt {A} (l : list A) (i : nat) :
  i < length l -> exists x, index l i = Ok x /\ l !! i = Some x.
Proof.
  intros H. unfold index. destruct (l !! i) as [x|] eqn:E; [eauto |].
  apply lookup_ge_None in E. lia.
Qed.

End StringFacts.

(** ** The cron normaliser: which inputs parse, and to what *)
Section CronFacts.

Lemma from_string_eq (s : string) :
  from_string s
  = rbind (cron_str_to_cron_str7 s) (fun x => cronstruct_of_vector (split " " x)).
Proof. reflexivity. Qed.

Lemma cronstruct_of_vector_seven (v : list string) :
  7 <= length v ->
  exists e0 e1 e2 e3 e4 e5 e6 rest,
    v = e0 :: e1 :: e2 :: e3 :: e4 :: e5 :: e6 :: rest /\
    cronstruct_of_vector v
    = Ok (mkCronStruct (nonwildcard_or_none e0) (nonwildcard_or_none e1)
            (nonwildcard_or_none e2) (nonwildcard_or_none e3)
            (nonwildcard_or_none e4) (nonwildcard_or_none e5)
            (nonwildcard_or_none e6)).
Proof.
  intros H.
  destruct v as [|e0 [|e1 [|e2 [|e3 [|e4 [|e5 [|e6 rest]]]]]]];
    simpl in H; try lia.
  exists e0, e1, e2, e3, e4, e5, e6, rest. split; reflexivity.
Qed.

Lemma cronstruct_of_vector_short (v : list string) :
  length v < 7 -> cronstruct_of_vector v = Raise IndexError.
Proof.
  intros H.
  destruct v as [|e0 [|e1 [|e2 [|e3 [|e4 [|e5 [|e6 rest]]]]]]];
    simpl in H; try lia; reflexivity.
Qed.

Lemma cron_str7_rejected (s : string) :
  accepted (length (cron_elements s)) = false ->
  cron_str_to_cron_str7 s
  = Raise (ValueError (wrong_quantity (length (cron_elements s)) s)).
Proof.
  unfold cron_str_to_cron_str7, accepted.
  destruct (length (cron_elements s)) as [|[|[|[|[|[|[|[|n]]]]]]]];
    intros H; try discriminate H; reflexivity.
Qed.

(** The 7-element string always has at least seven pieces: the stripped
    count is a lower bound for the count of the unstripped string. *)
Lemma cron_str7_pieces (s x : string) :
  cron_str_to_cron_str7 s = Ok x -> 7 <= length (split " " x).
Proof.
  unfold cron_str_to_cron_str7.
  pose proof (cron_elements_le s) as Hle.
  rewrite split_length in Hle.
  destruct (length (cron_elements s)) as [|[|[|[|[|[|[|[|n]]]]]]]];
    intros H; inversion H; subst; clear H;
    rewrite split_length; simpl; rewrite ?count_app; simpl; lia.
Qed.

Lemma from_string_accepted (s : string) :
  accepted (length (cron_elements s)) = true -> exists c, from_string s = Ok c.
Proof.
  intros Ha. rewrite from_string_eq.
  destruct (cron_str_to_cron_str7 s) as [x|e] eqn:E.
  - apply cron_str7_pieces in E. cbn [rbind].
    destruct (cronstruct_of_vector_seven _ E)
      as (e0 & e1 & e2 & e3 & e4 & e5 & e6 & rest & _ & ->).
    eauto.
  - exfalso. unfold cron_str_to_cron_str7, accepted in *.
    destruct (length (cron_elements s)) as [|[|[|[|[|[|[|[|n]]]]]]]];
      discriminate.
Qed.

End CronFacts.

(** What the code does with its own count, the number of pieces of the
  stripped string between single spaces: outside 5, 6 and 7 it raises a
  [ValueError] whose message carries that count, inside it parses
  without error. *)
Lemma from_string_field_count (s : string) :
let n := length (cron_elements s) in
if accepted n
then exists c, from_string s = Ok c
else from_string s = Raise (ValueError (wrong_quantity n s)).
Proof.
intros n. subst n. destruct (accepted (length (cron_elements s))) eqn:Ha.
- now apply from_string_accepted.
- rewrite from_string_eq, (cron_str7_rejected s Ha). reflexivity.
Qed.

Example from_string_one_field :
from_string "a"
= Raise (ValueError "Wrong quantity of elements (1) found in cron_expression_string 'a'").
Proof. reflexivity. Qed.

Example from_string_four_fields :
from_string "0 9 * *"
= Raise (ValueError "Wrong quantity of elements (4) found in cron_expression_string '0 9 * *'").
Proof. reflexivity. Qed.

Example from_string_eight_fields :
from_string "0 0 9 * * * 2025 x"
= Raise (ValueError
    "Wrong quantity of elements (8) found in cron_expression_string '0 0 9 * * * 2025 x'").
Proof. reflexivity. Qed.

(** C3. The count that decides and that the message reports is not the
  number of fields as soon as two fields are more than one space apart:
  an input of four fields is parsed, an input of seven fields is refused
  with a message that says eight, and the empty input, which has no
  field, is reported as one element. *)
Theorem from_string_miscounts :
fields "1 2  3 4" = ["1"; "2"; "3"; "4"] /\
from_string "1 2  3 4"
= Ok (mkCronStruct (Some "0") (Some "1") (Some "2") (Some EmptyString)
        (Some "3") (Some "4") None) /\
fields "1 2 3  4 5 6 7" = ["1"; "2"; "3"; "4"; "5"; "6"; "7"] /\
from_string "1 2 3  4 5 6 7"
= Raise (ValueError
    "Wrong quantity of elements (8) found in cron_expression_string '1 2 3  4 5 6 7'") /\
fields EmptyString = [] /\
from_string EmptyString
= Raise (ValueError
    "Wrong quantity of elements (1) found in cron_expression_string ''").
Proof. repeat apply conj; reflexivity. Qed.

(** ** Stripping a space-joined list of tokens *)
Section StripJoin.

Lemma lstrip_empty_iff (s : string) : lstrip s = EmptyString <-> blank s = true.
Proof.
  induction s as [|c r IH]; simpl; [tauto |].
  destruct (isspace c); simpl; [exact IH |].
  split; discriminate.
Qed.

Lemma rstrip_empty_iff (s : string) : rstrip s = EmptyString <-> blank s = true.
Proof.
  induction s as [|c r IH]; simpl; [tauto |].
  destruct (rstrip r) eqn:E.
  - destruct (isspace c); simpl; [| split; discriminate].
    split; intros _; [now apply IH | reflexivity].
  - split; [discriminate |].
    intros H. apply andb_true_iff in H as [_ H]. apply IH in H. discriminate.
Qed.

Lemma blank_lstrip (s : string) : blank (lstrip s) = blank s.
Proof.
  induction s as [|c r IH]; simpl; [reflexivity |].
  destruct (isspace c) eqn:E; simpl; [exact IH | now rewrite E].
Qed.

Lemma strip_empty_iff (s : string) : strip s = EmptyString <-> blank s = true.
Proof. unfold strip. now rewrite rstrip_empty_iff, blank_lstrip. Qed.

Lemma lstrip_app (a b : string) :
  blank a = false -> lstrip (a +:+ b) = lstrip a +:+ b.
Proof.
  induction a as [|c r IH]; simpl; [discriminate |].
  destruct (isspace c); simpl; [exact IH | reflexivity].
Qed.

Lemma app_cons_nonempty (a : string) (c : ascii) (b : string) :
  a +:+ String c b <> EmptyString.
Proof. destruct a; discriminate. Qed.

Lemma rstrip_app (a b : string) :
  blank b = false -> rstrip (a +:+ b) = a +:+ rstrip b.
Proof.
  intros Hb. induction a as [|c r IH]; simpl; [reflexivity |].
  rewrite IH. destruct (r +:+ rstrip b) eqn:E; [| reflexivity].
  exfalso. destruct r; simpl in E; [| discriminate].
  apply rstrip_empty_iff in E. congruence.
Qed.

Lemma blank_app (a b : string) : blank (a +:+ b) = blank a && blank b.
Proof.
  induction a as [|c r IH]; simpl; [reflexivity |].
  now rewrite IH, andb_assoc.
Qed.

Lemma join_cons (sep : ascii) (x y : string) (l : list string) :
  join sep (x :: y :: l) = x +:+ String sep (join sep (y :: l)).
Proof. reflexivity. Qed.

Lemma count_join (l : list string) :
  Forall (fun t => count " " t = 0) l ->
  count " " (join " " l) = length l - 1.
Proof.
  induction 1 as [|x l Hx Hl IH]; [reflexivity |].
  destruct l as [|y l]; [simpl; lia |].
  rewrite join_cons, count_app.
  change (count " " (String " " (join " " (y :: l))))
    with (S (count " " (join " " (y :: l)))).
  rewrite IH, Hx. simpl. lia.
Qed.

Lemma split_join (l : list string) :
  l <> [] -> Forall (fun t => count " " t = 0) l ->
  split " " (join " " l) = l.
Proof.
  intros Hn H. induction H as [|x l Hx Hl IH]; [contradiction |].
  destruct l as [|y l]; [simpl; now apply split_nosep |].
  rewrite join_cons, split_app_sep, (split_nosep _ _ Hx), IH; [reflexivity |].
  discriminate.
Qed.

Lemma lstrip_join (x : string) (l : list string) :
  blank x = false -> lstrip (join " " (x :: l)) = join " " (lstrip x :: l).
Proof.
  intros Hx. destruct l as [|y l]; [reflexivity |].
  rewrite !join_cons. now apply lstrip_app.
Qed.

Lemma rstrip_cons_nonempty (c : ascii) (r : string) :
  rstrip r <> EmptyString -> rstrip (String c r) = String c (rstrip r).
Proof. intros H. simpl. destruct (rstrip r); [contradiction | reflexivity]. Qed.

Lemma rstrip_app_sep (a : string) (c : ascii) (b : string) :
  rstrip b <> EmptyString ->
  rstrip (a +:+ String c b) = a +:+ String c (rstrip b).
Proof.
  intros H. rewrite rstrip_app, rstrip_cons_nonempty; auto.
  simpl. apply andb_false_iff. right.
  apply Bool.not_true_iff_false. intros Hb. now apply rstrip_empty_iff in Hb.
Qed.

Lemma join_cons_nonnil (sep : ascii) (x : string) (l : list string) :
  l <> [] -> join sep (x :: l) = x +:+ String sep (join sep l).
Proof. destruct l; [contradiction | reflexivity]. Qed.

Lemma join_last_nonempty (l : list string) (z : string) :
  z <> EmptyString -> join " " (l ++ [z]) <> EmptyString.
Proof.
  intros Hz. destruct l as [|x l]; [exact Hz |].
  simpl app. rewrite join_cons_nonnil; [| destruct l; discriminate].
  apply app_cons_nonempty.
Qed.

Lemma rstrip_join (l : list string) (z : string) :
  blank z = false ->
  rstrip (join " " (l ++ [z])) = join " " (l ++ [rstrip z]).
Proof.
  intros Hz.
  assert (Hne : rstrip z <> EmptyString).
  { intros E. apply rstrip_empty_iff in E. congruence. }
  induction l as [|x l IH]; [reflexivity |].
  simpl app. rewrite !join_cons_nonnil; try (destruct l; discriminate).
  rewrite rstrip_app_sep, IH; [reflexivity |].
  rewrite IH. now apply join_last_nonempty.
Qed.

End StripJoin.

(** ** Parsing a space-joined list of tokens, and rendering back *)
Section CronRoundTrip.

Lemma spacefree_lstrip (t : string) : spacefree t -> spacefree (lstrip t).
Proof. unfold spacefree. pose proof (count_lstrip_le " " t). lia. Qed.

Lemma spacefree_rstrip (t : string) : spacefree t -> spacefree (rstrip t).
Proof. unfold spacefree. pose proof (count_rstrip_le " " t). lia. Qed.

(** When neither the first nor the last token is all whitespace,
    stripping removes no separator: the code counts the tokens. *)
Lemma cron_elements_join (x : string) (l : list string) (z : string) :
  Forall spacefree (x :: l ++ [z]) ->
  blank x = false -> blank z = false ->
  length (cron_elements (join " " (x :: l ++ [z]))) = length (x :: l ++ [z]).
Proof.
  intros Hall Hx Hz. unfold cron_elements, strip.
  rewrite lstrip_join by exact Hx.
  change (lstrip x :: l ++ [z]) with ((lstrip x :: l) ++ [z]).
  rewrite rstrip_join by exact Hz.
  rewrite split_length, count_join.
  - rewrite !length_app. simpl. rewrite length_app. simpl. lia.
  - inversion Hall as [|? ? Hx' Hl]; subst.
    apply Forall_app in Hl as [Hl Hz']. simpl.
    constructor; [now apply spacefree_lstrip |].
    apply Forall_app. split; [exact Hl |].
    inversion Hz'; subst. constructor; [now apply spacefree_rstrip | constructor].
Qed.

Lemma nonwildcard_field_ok (e : string) :
  spacefree e -> field_ok (nonwildcard_or_none e).
Proof.
  intros He x. unfold nonwildcard_or_none.
  destruct (String.eqb e "*") eqn:E; [discriminate |].
  intros [= <-]. split; [exact He |]. now apply String.eqb_neq.
Qed.

Lemma from_string_fields_ok (s : string) (c : CronStruct) :
  from_string s = Ok c -> fields_ok c.
Proof.
  rewrite from_string_eq.
  destruct (cron_str_to_cron_str7 s) as [x|e] eqn:E; [| discriminate].
  cbn [rbind]. pose proof (split_pieces_nosep " " x) as Hp.
  destruct (cronstruct_of_vector_seven _ (cron_str7_pieces s x E))
    as (e0 & e1 & e2 & e3 & e4 & e5 & e6 & rest & Hv & ->).
  rewrite Hv in Hp. intros [= <-].
  repeat match goal with
         | H : Forall _ (_ :: _) |- _ => inversion H; subst; clear H
         end.
  unfold fields_ok; simpl.
  repeat apply conj; apply nonwildcard_field_ok; assumption.
Qed.

Lemma value_or_wildcard_spacefree (f : option string) :
  field_ok f -> spacefree (value_or_wildcard f).
Proof.
  intros H. destruct f as [x|]; [| reflexivity].
  destruct (H x eq_refl) as [Hs _]. simpl.
  destruct (truthy x); [exact Hs | reflexivity].
Qed.

Lemma to_string7_join (c : CronStruct) : to_string7 c = join " " (rendered c).
Proof. reflexivity. Qed.

Lemma rendered_spacefree (c : CronStruct) :
  fields_ok c -> Forall spacefree (rendered c).
Proof.
  intros (H0 & H1 & H2 & H3 & H4 & H5 & H6). unfold rendered.
  repeat constructor; now apply value_or_wildcard_spacefree.
Qed.

Lemma to_string7_tokens (c : CronStruct) :
  fields_ok c -> split " " (to_string7 c) = rendered c.
Proof.
  intros H. rewrite to_string7_join.
  apply split_join; [discriminate | now apply rendered_spacefree].
Qed.

Lemma solid_nonempty (f : option string) :
  solid_field f = true -> nonempty_field f = true.
Proof. destruct f as [[|a x]|]; simpl; auto. Qed.

Lemma solid_rendered (f : option string) :
  solid_field f = true -> blank (value_or_wildcard f) = false.
Proof.
  destruct f as [[|a x]|]; simpl; try reflexivity.
  intros H. now apply negb_true_iff in H.
Qed.

Lemma nonwildcard_rendered (f : option string) :
  field_ok f -> nonempty_field f = true ->
  nonwildcard_or_none (value_or_wildcard f) = f.
Proof.
  intros Hok Hne. destruct f as [x|]; [| reflexivity].
  simpl in *. rewrite Hne. unfold nonwildcard_or_none.
  destruct (String.eqb x "*") eqn:E; [| reflexivity].
  apply String.eqb_eq in E. destruct (Hok x eq_refl) as [_ Hw]. contradiction.
Qed.

Lemma roundtrip_of_faithful (c : CronStruct) :
  fields_ok c -> faithful c = true -> from_string (to_string7 c) = Ok c.
Proof.
  intros Hok Hf. unfold faithful in Hf.
  repeat (apply andb_true_iff in Hf as [Hf ?]).
  assert (Hn : length (cron_elements (to_string7 c)) = 7).
  { rewrite to_string7_join. unfold rendered.
    apply (cron_elements_join _ [_; _; _; _; _] _).
    - now apply (rendered_spacefree c).
    - now apply solid_rendered.
    - now apply solid_rendered. }
  rewrite from_string_eq. unfold cron_str_to_cron_str7. rewrite Hn.
  cbn [rbind]. rewrite (to_string7_tokens c Hok).
  destruct Hok as (K0 & K1 & K2 & K3 & K4 & K5 & K6).
  unfold rendered, cronstruct_of_vector; simpl.
  rewrite !nonwildcard_rendered; auto using solid_nonempty.
  now destruct c.
Qed.

End CronRoundTrip.

(** ** When the round trip fails *)
Section CronRoundTripFails.

Lemma lstrip_app_blank (a b : string) :
  blank a = true -> lstrip (a +:+ b) = lstrip b.
Proof.
  induction a as [|c r IH]; simpl; [reflexivity |].
  intros H. apply andb_true_iff in H as [-> H]. now apply IH.
Qed.

Lemma rstrip_app_blank (a b : string) :
  blank b = true -> rstrip (a +:+ b) = rstrip a.
Proof.
  intros Hb. induction a as [|c r IH]; simpl.
  - now apply rstrip_empty_iff.
  - now rewrite IH.
Qed.

Lemma reparse_short (c c' : CronStruct) :
  fields_ok c ->
  length (cron_elements (to_string7 c)) <= 6 ->
  from_string (to_string7 c) = Ok c' -> c' = shifted c.
Proof.
  intros Hok Hn. rewrite from_string_eq. unfold cron_str_to_cron_str7.
  destruct (length (cron_elements (to_string7 c)))
    as [|[|[|[|[|[|[|[|n]]]]]]]]; try discriminate; try lia; cbn [rbind].
  - change ("0 " +:+ to_string7 c +:+ " *")
      with ("0" +:+ String " " (to_string7 c +:+ String " " "*")).
    rewrite !split_app_sep, (to_string7_tokens c Hok).
    now intros [= <-].
  - change ("0 " +:+ to_string7 c) with ("0" +:+ String " " (to_string7 c)).
    rewrite split_app_sep, (to_string7_tokens c Hok).
    now intros [= <-].
Qed.

Lemma shifted_fixed (c : CronStruct) :
  shifted c = c ->
  blank (value_or_wildcard (second c)) = false /\
  blank (value_or_wildcard (year c)) = false.
Proof.
  destruct c as [f0 f1 f2 f3 f4 f5 f6]. unfold shifted; simpl.
  intros [= <- <- <- <- <- <- <-]. split; reflexivity.
Qed.

Lemma blank_first_short (c : CronStruct) :
  fields_ok c -> blank (value_or_wildcard (second c)) = true ->
  length (cron_elements (to_string7 c)) <= 6.
Proof.
  intros Hok Hb. unfold cron_elements, strip. rewrite split_length.
  pose proof (count_rstrip_le " " (lstrip (to_string7 c))) as H1.
  pose proof (rendered_spacefree c Hok) as Hs.
  inversion Hs as [|? ? _ Hs']; subst.
  rewrite to_string7_join in *. unfold rendered in *.
  rewrite join_cons in *. rewrite lstrip_app_blank in * by exact Hb.
  match goal with
  | |- context [join " " ?l] => set (others := l) in *
  end.
  change (lstrip (String " " (join " " others)))
    with (lstrip (join " " others)) in *.
  pose proof (count_lstrip_le " " (join " " others)) as H2.
  rewrite (count_join others Hs') in H2.
  assert (Hlen : length others = 6) by reflexivity. lia.
Qed.

Lemma blank_last_short (c : CronStruct) :
  fields_ok c -> blank (value_or_wildcard (year c)) = true ->
  length (cron_elements (to_string7 c)) <= 6.
Proof.
  intros Hok Hb. unfold cron_elements, strip. rewrite split_length.
  pose proof (rendered_spacefree c Hok) as Hs.
  set (front := removelast (rendered c)).
  assert (Hj : to_string7 c
               = join " " front +:+ String " " (value_or_wildcard (year c))).
  { unfold to_string7, front; simpl.
    repeat (rewrite string_app_assoc; simpl). reflexivity. }
  destruct (blank (join " " front)) eqn:Hf.
  - assert (Hall : blank (to_string7 c) = true).
    { rewrite Hj, blank_app, Hf. simpl. exact Hb. }
    apply strip_empty_iff in Hall. unfold strip in Hall. rewrite Hall.
    simpl. lia.
  - rewrite Hj, lstrip_app by exact Hf.
    rewrite rstrip_app_blank by (simpl; exact Hb).
    pose proof (count_rstrip_le " " (lstrip (join " " front))) as H1.
    pose proof (count_lstrip_le " " (join " " front)) as H2.
    rewrite (count_join front) in H2.
    + assert (Hlen : length front = 6) by reflexivity. lia.
    + unfold front, rendered in *. simpl.
      repeat match goal with
             | H : Forall _ (_ :: _) |- _ => inversion H; subst; clear H
             end.
      repeat constructor; assumption.
Qed.

Lemma rendered_nonempty (f : option string) :
  nonwildcard_or_none (value_or_wildcard f) = f -> nonempty_field f = true.
Proof. destruct f as [[|a x]|]; simpl; [discriminate | reflexivity..]. Qed.

Lemma rendered_solid (f : option string) :
  blank (value_or_wildcard f) = false ->
  nonwildcard_or_none (value_or_wildcard f) = f -> solid_field f = true.
Proof.
  destruct f as [[|a x]|]; simpl; [discriminate | | reflexivity].
  intros ->. reflexivity.
Qed.

Lemma roundtrip_needs_faithful (c : CronStruct) :
  fields_ok c -> from_string (to_string7 c) = Ok c -> faithful c = true.
Proof.
  intros Hok Hr.
  destruct (blank (value_or_wildcard (second c))) eqn:B0.
  { pose proof (reparse_short c c Hok (blank_first_short c Hok B0) Hr) as E.
    symmetry in E. apply shifted_fixed in E as [E _]. congruence. }
  destruct (blank (value_or_wildcard (year c))) eqn:B6.
  { pose proof (reparse_short c c Hok (blank_last_short c Hok B6) Hr) as E.
    symmetry in E. apply shifted_fixed in E as [_ E]. congruence. }
  assert (Hn : length (cron_elements (to_string7 c)) = 7).
  { rewrite to_string7_join. unfold rendered.
    apply (cron_elements_join _ [_; _; _; _; _] _); auto.
    now apply (rendered_spacefree c). }
  revert Hr. rewrite from_string_eq. unfold cron_str_to_cron_str7. rewrite Hn.
  cbn [rbind]. rewrite (to_string7_tokens c Hok).
  destruct c as [f0 f1 f2 f3 f4 f5 f6].
  unfold rendered, cronstruct_of_vector, faithful.
  cbn [second minute hour day_of_month month day_of_week year] in *.
  cbn [index lookup list_lookup rbind].
  intros [= E0 E1 E2 E3 E4 E5 E6].
  rewrite (rendered_solid _ B0 E0), (rendered_nonempty _ E1),
    (rendered_nonempty _ E2), (rendered_nonempty _ E3),
    (rendered_nonempty _ E4), (rendered_nonempty _ E5),
    (rendered_solid _ B6 E6).
  reflexivity.
Qed.

End CronRoundTripFails.

(** The round trip on everything that [from_string] accepts:
  [to_string7] of the parsed structure has exactly seven space-separated
  tokens, and parsing it again gives back the same structure exactly when
  no parsed field is the empty string and neither the second nor the
  year field is made of whitespace only. *)
Lemma to_string7_roundtrip (s : string) (c : CronStruct) :
from_string s = Ok c ->
length (split " " (to_string7 c)) = 7 /\
(from_string (to_string7 c) = Ok c <-> faithful c = true).
Proof.
intros H. apply from_string_fields_ok in H. split.
- now rewrite (to_string7_tokens c H).
- split; [now apply roundtrip_needs_faithful | now apply roundtrip_of_faithful].
Qed.

Lemma to_string7_roundtrip_witness :
let c := mkCronStruct (Some "0") (Some "0") (Some "9") None None (Some "1-5") None in
from_string "0 9 * * 1-5" = Ok c /\
length (split " " (to_string7 c)) = 7 /\
(from_string (to_string7 c) = Ok c <-> faithful c = true).
Proof.
split; [reflexivity |].
apply (to_string7_roundtrip "0 9 * * 1-5"). reflexivity.
Defined.

(** C2. The input "1 2  3 4 5" has five fields, the second and the third
  two spaces apart. [from_string] takes the gap for an empty element and
  the input for six elements: the day of month is the empty string and
  the last field lands in the year. [to_string7] renders the empty field
  as the wildcard, the second parse reads it as unset, and the round
  trip does not give back the parsed structure. *)
Theorem roundtrip_fails_on_empty_field :
let c := mkCronStruct (Some "0") (Some "1") (Some "2") (Some EmptyString)
           (Some "3") (Some "4") (Some "5") in
let c' := mkCronStruct (Some "0") (Some "1") (Some "2") None
            (Some "3") (Some "4") (Some "5") in
fields "1 2  3 4 5" = ["1"; "2"; "3"; "4"; "5"] /\
from_string "1 2  3 4 5" = Ok c /\
to_string7 c = "0 1 2 * 3 4 5" /\
to_string c = "1 2 * 3 4" /\
from_string (to_string7 c) = Ok c' /\
c' <> c.
Proof.
intros c c'. repeat apply conj; try reflexivity. discriminate.
Qed.

(** ** Fields that are one space apart *)
Section CronFields.

Lemma string_app_nil_r (a : string) : a +:+ EmptyString = a.
Proof. induction a as [|x a IH]; simpl; [reflexivity | now rewrite IH]. Qed.

Lemma fields_from_graphic (t current r : string) :
  graphic t = true ->
  fields_from current (t +:+ r) = fields_from (current +:+ t) r.
Proof.
  revert current. induction t as [|c t IH]; intros current H.
  - simpl. now rewrite string_app_nil_r.
  - simpl in H. apply andb_true_iff in H as [Hc Ht].
    apply negb_true_iff in Hc. simpl. rewrite Hc, (IH _ Ht).
    now rewrite string_app_assoc.
Qed.

Lemma fields_join (ts : list string) :
  Forall (fun t => token t = true) ts -> fields (join " " ts) = ts.
Proof.
  unfold fields. induction 1 as [|t ts Ht Hts IH]; [reflexivity |].
  apply andb_true_iff in Ht as [Hne Hg].
  destruct ts as [|t2 ts].
  - simpl. rewrite <- (string_app_nil_r t) at 1.
    rewrite (fields_from_graphic _ _ _ Hg). simpl. now rewrite Hne.
  - change (join " " (t :: t2 :: ts))
      with (t +:+ String " " (join " " (t2 :: ts))).
    remember (join " " (t2 :: ts)) as rest eqn:Er.
    rewrite (fields_from_graphic _ _ _ Hg). simpl. rewrite Hne.
    subst rest. now rewrite IH.
Qed.

Lemma graphic_spacefree (t : string) : graphic t = true -> spacefree t.
Proof.
  unfold spacefree. induction t as [|c t IH]; [reflexivity |].
  simpl. intros H. apply andb_true_iff in H as [Hc Ht].
  destruct (Ascii.eqb_spec c " ") as [-> | _]; [discriminate Hc | now apply IH].
Qed.

Lemma token_not_blank (t : string) : token t = true -> blank t = false.
Proof.
  destruct t as [|c t]; [discriminate |].
  unfold token. simpl. intros H. apply andb_true_iff in H as [Hc _].
  apply negb_true_iff in Hc. now rewrite Hc.
Qed.

(** On fields that are one space apart, with nothing around them, the
    count of the code is the number of fields: such an input is parsed
    when it has 5, 6 or 7 fields and refused with their number
    otherwise. *)
Lemma from_string_single_spaced (x : string) (l : list string) (z : string) :
  Forall (fun t => token t = true) (x :: l ++ [z]) ->
  let s := join " " (x :: l ++ [z]) in
  fields s = x :: l ++ [z] /\
  if accepted (length (fields s))
  then exists c, from_string s = Ok c
  else from_string s = Raise (ValueError (wrong_quantity (length (fields s)) s)).
Proof.
  intros Hall s. pose proof (fields_join _ Hall) as Hf. fold s in Hf.
  split; [exact Hf |].
  assert (Hn : length (cron_elements s) = length (fields s)).
  { rewrite Hf. apply cron_elements_join.
    - eapply Forall_impl; [exact Hall |]. intros t Ht.
      apply andb_true_iff in Ht as [_ Hg]. now apply graphic_spacefree.
    - apply token_not_blank. now inversion Hall.
    - apply token_not_blank. inversion Hall as [|? ? _ Hl]; subst.
      apply Forall_app in Hl as [_ Hz]. now inversion Hz. }
  rewrite <- Hn. exact (from_string_field_count s).
Qed.

End CronFields.

(** ** Five and six tokens *)
Section CronTokens.

Variables t1 t2 t3 t4 t5 : string.
Hypothesis tokens_spacefree : Forall spacefree [t1; t2; t3; t4; t5].
Hypothesis first_not_blank : blank t1 = false.

(** Five tokens separated by single spaces, with no whitespace-only
    token at either end: second is "0", year is unset, the tokens fill
    minute to day-of-week in order. *)
Lemma from_string_five_tokens :
  blank t5 = false ->
  from_string (join " " [t1; t2; t3; t4; t5])
  = Ok (mkCronStruct (Some "0") (nonwildcard_or_none t1)
          (nonwildcard_or_none t2) (nonwildcard_or_none t3)
          (nonwildcard_or_none t4) (nonwildcard_or_none t5) None).
Proof.
  intros Hz. set (s := join " " [t1; t2; t3; t4; t5]).
  assert (Hn : length (cron_elements s) = 5)
    by now apply (cron_elements_join t1 [t2; t3; t4] t5).
  rewrite from_string_eq. unfold cron_str_to_cron_str7. rewrite Hn.
  cbn [rbind].
  change ("0 " +:+ s +:+ " *") with ("0" +:+ String " " (s +:+ String " " "*")).
  rewrite !split_app_sep. unfold s.
  rewrite split_join by (discriminate || assumption). reflexivity.
Qed.

(** Six tokens: the same, with the sixth token as year. *)
Lemma from_string_six_tokens (t6 : string) :
  spacefree t6 -> blank t6 = false ->
  from_string (join " " [t1; t2; t3; t4; t5; t6])
  = Ok (mkCronStruct (Some "0") (nonwildcard_or_none t1)
          (nonwildcard_or_none t2) (nonwildcard_or_none t3)
          (nonwildcard_or_none t4) (nonwildcard_or_none t5)
          (nonwildcard_or_none t6)).
Proof.
  intros Hs Hz. set (s := join " " [t1; t2; t3; t4; t5; t6]).
  assert (Hall : Forall spacefree [t1; t2; t3; t4; t5; t6]).
  { change [t1; t2; t3; t4; t5; t6] with ([t1; t2; t3; t4; t5] ++ [t6]).
    apply Forall_app. split; [assumption | now constructor]. }
  assert (Hn : length (cron_elements s) = 6)
    by now apply (cron_elements_join t1 [t2; t3; t4; t5] t6).
  rewrite from_string_eq. unfold cron_str_to_cron_str7. rewrite Hn.
  cbn [rbind].
  change ("0 " +:+ s) with ("0" +:+ String " " s).
  rewrite !split_app_sep. unfold s.
  rewrite split_join by (discriminate || assumption). reflexivity.
Qed.

End CronTokens.

(** C8. With a space in front, an input that the code counts as five
    elements is parsed with an empty minute, every token one field too far
    to the right and the fifth token as year; with a space behind, the
    year is the empty string instead of unset. The count is taken on the
    stripped string and the seven-element string is built from the
    unstripped one. *)
Theorem from_string_padded_five :
  length (cron_elements " 1 2 3 4 5") = 5 /\
  from_string " 1 2 3 4 5"
  = Ok (mkCronStruct (Some "0") (Some EmptyString) (Some "1") (Some "2")
          (Some "3") (Some "4") (Some "5")) /\
  length (cron_elements "1 2 3 4 5 ") = 5 /\
  from_string "1 2 3 4 5 "
  = Ok (mkCronStruct (Some "0") (Some "1") (Some "2") (Some "3")
          (Some "4") (Some "5") (Some EmptyString)).
Proof. repeat split; reflexivity. Qed.

(** ** The cron evaluator: the policy branch *)
Section EvaluatorFacts.

Import Evaluator.

Context {DateTime Naive TZ CronIter : Type}.
Variable ZoneInfo : string -> result TZ.
Variable now : TZ -> DateTime.
Variable croniter : string -> DateTime -> result CronIter.
Variable get_next : CronIter -> result (DateTime * CronIter).
Variable make_datetime_naive : DateTime -> result Naive.
Variable localize_datetime : Naive -> TZ -> result DateTime.
Variable astimezone : DateTime -> TZ -> DateTime.
Variable date_day : DateTime -> Z.
Variable str_datetime : DateTime -> string.
Variable time_zone_string : string.

Abbreviation evaluate :=
  (tz_cron_to_utc_datetimes ZoneInfo now croniter get_next make_datetime_naive
     localize_datetime astimezone date_day str_datetime time_zone_string).
Abbreviation calculate := (calculator_output croniter get_next).
Abbreviation relocalized :=
  (relocalize ZoneInfo make_datetime_naive localize_datetime astimezone).
Abbreviation loop :=
  (localize_loop ZoneInfo make_datetime_naive localize_datetime astimezone
     date_day str_datetime).

Lemma get_nexts_length (it : CronIter) (n : nat) (l : list DateTime) :
  get_nexts get_next it n = Ok l -> length l = n.
Proof.
  revert it l. induction n as [|n IH]; intros it l; simpl.
  - now intros [= <-].
  - destruct (get_next it) as [[d it']|e]; simpl; [| discriminate].
    destruct (get_nexts get_next it' n) as [rest|e] eqn:E; simpl; [| discriminate].
    intros [= <-]. simpl. f_equal. now apply (IH it').
Qed.

(** The loop returns the images appended to the accumulator, or the
    first exception of a step. *)
Lemma localize_loop_result (tz : TZ) (raw acc : list DateTime) (log : list string) :
  fst (loop tz raw acc log)
  = rbind (map_result (relocalized tz) raw) (fun out => Ok (acc ++ out)).
Proof.
  revert acc log. induction raw as [|d raw IH]; intros acc log; simpl.
  - now rewrite app_nil_r.
  - set (images := map_result (relocalized tz) raw) in *.
    unfold relocalize, bind, lift.
    destruct (make_datetime_naive d) as [n|e]; simpl; [| reflexivity].
    destruct (localize_datetime n tz) as [a|e]; simpl; [| reflexivity].
    destruct (ZoneInfo "UTC") as [utc|e]; simpl; [| reflexivity].
    destruct (Z.eqb (date_day d) (date_day (astimezone a utc))); simpl;
      rewrite IH; destruct images as [out|e]; simpl;
      rewrite <- ?app_assoc; reflexivity.
Qed.

Lemma map_result_lookup {A B} (f : A -> result B) (l : list A) (out : list B) :
  map_result f l = Ok out ->
  length out = length l /\
  forall i x, l !! i = Some x -> exists y, out !! i = Some y /\ f x = Ok y.
Proof.
  revert out. induction l as [|a l IH]; intros out; simpl.
  - intros [= <-]. split; [reflexivity |]. intros i x H. discriminate.
  - destruct (f a) as [b|e] eqn:Ea; simpl; [| discriminate].
    destruct (map_result f l) as [ys|e]; simpl; [| discriminate].
    intros [= <-]. destruct (IH ys eq_refl) as [Hl Hi].
    split; [simpl; now rewrite Hl |].
    intros [|i] x; simpl.
    + intros [= <-]. eauto.
    + apply Hi.
Qed.

(** C4. When the parsed schedule has no hour set, and also whenever
    [cron_is_utc] is true, the evaluator returns the output of the
    recurrence calculator as it is (its list of instants or its exception)
    and logs nothing. *)
Theorem evaluator_returns_calculator_output
    (s : string) (tza : tz_arg) (dta : dt_arg) (n : Z) (cron_is_utc : bool)
    (tz : TZ) (start : DateTime) (c : CronStruct) (log : list string) :
  resolve_timezone ZoneInfo time_zone_string tza = Ok tz ->
  resolve_reference ZoneInfo now dta = Ok start ->
  from_string s = Ok c ->
  hour c = None \/ cron_is_utc = true ->
  evaluate s tza dta n cron_is_utc log = (calculate (to_string c) start n, log).
Proof.
  intros Htz Hstart Hc Hbranch.
  unfold tz_cron_to_utc_datetimes, bind, lift. rewrite Htz, Hstart, Hc.
  destruct (calculate (to_string c) start n) as [raw|e]; [| reflexivity].
  unfold hour_is_wildcard, ret.
  destruct Hbranch as [-> | ->]; [reflexivity |].
  destruct (hour c) as [h|]; [| reflexivity].
  destruct (String.eqb h "*"); reflexivity.
Qed.

(** A parsed hour is never the wildcard itself, so a schedule with an
    hour set and [cron_is_utc] false always reaches the loop. *)
Lemma evaluate_local_branch
    (s : string) (tza : tz_arg) (dta : dt_arg) (n : Z)
    (tz : TZ) (start : DateTime) (c : CronStruct) (h : string)
    (raw : list DateTime) (log : list string) :
  resolve_timezone ZoneInfo time_zone_string tza = Ok tz ->
  resolve_reference ZoneInfo now dta = Ok start ->
  from_string s = Ok c ->
  hour c = Some h ->
  calculate (to_string c) start n = Ok raw ->
  evaluate s tza dta n false log = loop tz raw [] log.
Proof.
  intros Htz Hstart Hc Hh Hraw.
  unfold tz_cron_to_utc_datetimes, bind, lift.
  rewrite Htz, Hstart, Hc, Hraw. unfold hour_is_wildcard. rewrite Hh.
  destruct (from_string_fields_ok s c Hc) as (_ & _ & Hok & _).
  destruct (Hok h Hh) as [_ Hne]. apply String.eqb_neq in Hne. rewrite Hne.
  reflexivity.
Qed.

Lemma localize_loop_images (tz : TZ) (raw : list DateTime) (log : list string) :
  fst (loop tz raw [] log) = map_result (relocalized tz) raw.
Proof.
  rewrite localize_loop_result.
  destruct (map_result (relocalized tz) raw); reflexivity.
Qed.

(** C5. When [cron_is_utc] is false and the parsed schedule has a
    specific hour, the evaluator returns the element-wise image, in order,
    of the calculator output under [relocalize]: strip the UTC marker,
    reinterpret the reading in the effective timezone, convert to UTC. *)
Theorem evaluator_relocalizes
    (s : string) (tza : tz_arg) (dta : dt_arg) (n : Z)
    (tz : TZ) (start : DateTime) (c : CronStruct) (h : string)
    (raw : list DateTime) (log : list string) :
  resolve_timezone ZoneInfo time_zone_string tza = Ok tz ->
  resolve_reference ZoneInfo now dta = Ok start ->
  from_string s = Ok c ->
  hour c = Some h ->
  calculate (to_string c) start n = Ok raw ->
  fst (evaluate s tza dta n false log) = map_result (relocalized tz) raw.
Proof.
  intros Htz Hstart Hc Hh Hraw.
  rewrite (evaluate_local_branch s tza dta n tz start c h raw log) by assumption.
  apply localize_loop_images.
Qed.

(** *** Wall-clock readings

    What the datetime libraries are documented to do, in terms of the
    wall-clock reading of a datetime (its date, hour, minute and second as
    one count of seconds), its zone, and the offsets of a zone. *)
Section WallClock.

(** Reading and zone of an aware datetime; reading of a naive one. *)
Variable wall : DateTime -> Z.
Variable zone : DateTime -> TZ.
Variable reading : Naive -> Z.

(** [tz.utcoffset] of a wall-clock reading, and the offset in force at a
    UTC instant (what [tz.fromutc] adds). *)
Variable utcoffset : TZ -> Z -> Z.
Variable offset_at : TZ -> Z -> Z.

(** [make_datetime_naive] removes the zone and keeps the reading. *)
Hypothesis naive_keeps_reading :
  forall d n, make_datetime_naive d = Ok n -> reading n = wall d.

(** [localize_datetime] attaches the zone and keeps the reading. *)
Hypothesis localize_keeps_reading :
  forall n tz d, localize_datetime n tz = Ok d -> wall d = reading n /\ zone d = tz.

(** [astimezone] keeps the instant and reads it on the target zone. *)
Hypothesis astimezone_instant :
  forall d tz,
    zone (astimezone d tz) = tz /\
    wall (astimezone d tz)
    = ((wall d - utcoffset (zone d) (wall d))
       + offset_at tz (wall d - utcoffset (zone d) (wall d)))%Z.

Hypothesis utc_has_no_offset :
  forall utc, ZoneInfo "UTC" = Ok utc ->
    forall x, utcoffset utc x = 0%Z /\ offset_at utc x = 0%Z.

(** For such a reading, [utcoffset] is the offset in force at the one
    instant that shows it. *)
Hypothesis utcoffset_regular :
  forall tz w u,
    shows offset_at tz u w -> (forall u', shows offset_at tz u' w -> u' = u) ->
    utcoffset tz w = offset_at tz u.

Lemma relocalize_keeps_reading (tz : TZ) (d d' : DateTime) :
  relocalized tz d = Ok d' ->
  regular offset_at tz (wall d) ->
  wall (astimezone d' tz) = wall d.
Proof.
  unfold relocalize. intros H (u & Hu & Huniq).
  destruct (make_datetime_naive d) as [n|] eqn:En; [| discriminate].
  cbn [rbind] in H.
  destruct (localize_datetime n tz) as [a|] eqn:Ea; [| discriminate].
  cbn [rbind] in H.
  revert H. case_eq (ZoneInfo "UTC"); [intros utc Eu H | discriminate].
  cbn [rbind] in H. injection H as <-.
  apply naive_keeps_reading in En.
  apply localize_keeps_reading in Ea as [Ew Ez].
  destruct (astimezone_instant a utc) as [Zu Wu].
  destruct (astimezone_instant (astimezone a utc) tz) as [_ Wb].
  rewrite Wb, Zu, Wu, Ez, Ew, En.
  pose proof (utc_has_no_offset utc Eu) as H0.
  destruct (H0 (wall d - utcoffset tz (wall d))%Z) as [_ ->].
  destruct (H0 (wall d - utcoffset tz (wall d) + 0)%Z) as [-> _].
  rewrite (utcoffset_regular tz (wall d) u Hu Huniq).
  unfold shows in Hu.
  replace (wall d - offset_at tz u + 0 - 0)%Z with u by lia.
  exact Hu.
Qed.

(** C10. In the local-to-UTC branch, every returned instant, converted
    back into the effective timezone, shows the wall-clock reading of the
    calculator output at the same position, provided that reading names an
    existing, unambiguous local time of that timezone. *)
Theorem evaluator_keeps_wall_clock
    (s : string) (tza : tz_arg) (dta : dt_arg) (n : Z)
    (tz : TZ) (start : DateTime) (c : CronStruct) (h : string)
    (raw out : list DateTime) (log : list string) :
  resolve_timezone ZoneInfo time_zone_string tza = Ok tz ->
  resolve_reference ZoneInfo now dta = Ok start ->
  from_string s = Ok c ->
  hour c = Some h ->
  calculate (to_string c) start n = Ok raw ->
  fst (evaluate s tza dta n false log) = Ok out ->
  length out = length raw /\
  forall i d, raw !! i = Some d -> regular offset_at tz (wall d) ->
    exists d', out !! i = Some d' /\ wall (astimezone d' tz) = wall d.
Proof.
  intros Htz Hstart Hc Hh Hraw Hout.
  rewrite (evaluate_local_branch s tza dta n tz start c h raw log) in Hout
    by assumption.
  rewrite localize_loop_images in Hout.
  destruct (map_result_lookup _ _ _ Hout) as [Hlen Himg].
  split; [exact Hlen |].
  intros i d Hi Hreg. destruct (Himg i d Hi) as (d' & Hd' & Hrel).
  exists d'. split; [exact Hd' |]. now apply relocalize_keeps_reading.
Qed.

End WallClock.

End EvaluatorFacts.

Section CalendarFacts.

Import Calendar.
Local Open Scope Z_scope.

Lemma calendar_utc_has_no_offset (z : zone) :
  ZoneInfo "UTC" = Ok z -> forall x, utcoffset z x = 0 /\ offset_at z x = 0.
Proof.
  intros [= <-] x. unfold utcoffset, offset_at; simpl.
  split;
    match goal with
    | |- (if ?b then _ else _) = _ => destruct b
    end; reflexivity.
Qed.

Lemma calendar_utcoffset_regular (z : zone) (w u : Z) :
  u + offset_at z u = w ->
  (forall u', u' + offset_at z u' = w -> u' = u) ->
  utcoffset z w = offset_at z u.
Proof.
  unfold utcoffset, offset_at. intros Hu Huniq.
  destruct (Z.ltb_spec u (switch z)) as [Hlt|Hge];
    destruct (Z.ltb_spec w (switch z + Z.max (before z) (after z))) as [Hw|Hw];
    try reflexivity; try lia.
  specialize (Huniq (w - before z)).
  destruct (Z.ltb_spec (w - before z) (switch z)); lia.
Qed.

Lemma calendar_naive_keeps_reading (d : datetime) (n : Z) :
  make_datetime_naive d = Ok n -> n = wall d.
Proof. now intros [= <-]. Qed.

Lemma calendar_localize_keeps_reading (n : Z) (z : zone) (d : datetime) :
  localize_datetime n z = Ok d -> wall d = n /\ tzinfo d = z.
Proof. intros [= <-]. split; reflexivity. Qed.

Lemma calendar_astimezone_instant (d : datetime) (z : zone) :
  tzinfo (astimezone d z) = z /\
  wall (astimezone d z)
  = wall d - utcoffset (tzinfo d) (wall d)
    + offset_at z (wall d - utcoffset (tzinfo d) (wall d)).
Proof. split; reflexivity. Qed.

Example calendar_daily_nine :
  fst (Evaluator.tz_cron_to_utc_datetimes ZoneInfo now croniter get_next
         make_datetime_naive localize_datetime astimezone date_day str_datetime
         "America/Los_Angeles" "0 9 * * *"
         (Evaluator.TzStr "America/Los_Angeles") Evaluator.DtNone 2 false [])
  = Ok [mkDateTime 1742745600 utc; mkDateTime 1742832000 utc].
Proof. vm_compute. reflexivity. Qed.

End CalendarFacts.

Section EvaluatorExamples.

Import Evaluator Calendar.

Abbreviation run_calendar :=
  (tz_cron_to_utc_datetimes ZoneInfo now croniter get_next make_datetime_naive
     localize_datetime astimezone date_day str_datetime "America/Los_Angeles").

Lemma evaluator_returns_calculator_output_witness :
  from_string "0 9 * * *" = Ok daily_nine /\
  run_calendar "0 9 * * *" (TzStr "America/Los_Angeles") DtNone 2%Z true []
  = (calculator_output croniter get_next (to_string daily_nine) (now utc) 2%Z, []).
Proof.
  split; [reflexivity |].
  apply (evaluator_returns_calculator_output ZoneInfo now croniter get_next
           make_datetime_naive localize_datetime astimezone date_day
           str_datetime "America/Los_Angeles" "0 9 * * *"
           (TzStr "America/Los_Angeles") DtNone 2%Z true los_angeles).
  - reflexivity.
  - reflexivity.
  - reflexivity.
  - right. reflexivity.
Defined.

Lemma evaluator_relocalizes_witness :
  calculator_output croniter get_next (to_string daily_nine) (now utc) 2%Z
  = Ok raw_daily_nine /\
  fst (run_calendar "0 9 * * *" (TzStr "America/Los_Angeles") DtNone 2%Z false [])
  = map_result
      (relocalize ZoneInfo make_datetime_naive localize_datetime astimezone
         los_angeles) raw_daily_nine.
Proof.
  split; [reflexivity |].
  apply (evaluator_relocalizes ZoneInfo now croniter get_next
           make_datetime_naive localize_datetime astimezone date_day
           str_datetime "America/Los_Angeles" "0 9 * * *"
           (TzStr "America/Los_Angeles") DtNone 2%Z los_angeles (now utc)
           daily_nine "9").
  - reflexivity.
  - reflexivity.
  - reflexivity.
  - reflexivity.
  - reflexivity.
Defined.

Lemma evaluator_keeps_wall_clock_witness :
  let out := [mkDateTime 1742745600 utc; mkDateTime 1742832000 utc] in
  fst (run_calendar "0 9 * * *" (TzStr "America/Los_Angeles") DtNone 2%Z false [])
  = Ok out /\
  length out = length raw_daily_nine /\
  forall i d, raw_daily_nine !! i = Some d ->
    (exists u, (u + offset_at los_angeles u = wall d)%Z /\
       forall u', (u' + offset_at los_angeles u' = wall d)%Z -> u' = u) ->
    exists d', out !! i = Some d' /\ wall (astimezone d' los_angeles) = wall d.
Proof.
  intros out. split; [reflexivity |].
  apply (evaluator_keeps_wall_clock ZoneInfo now croniter get_next
           make_datetime_naive localize_datetime astimezone date_day
           str_datetime "America/Los_Angeles" wall tzinfo (fun n : Z => n)
           utcoffset offset_at
           calendar_naive_keeps_reading calendar_localize_keeps_reading
           calendar_astimezone_instant
           calendar_utc_has_no_offset calendar_utcoffset_regular
           "0 9 * * *" (TzStr "America/Los_Angeles") DtNone 2%Z los_angeles
           (now utc) daily_nine "9" raw_daily_nine out nil).
  - reflexivity.
  - reflexivity.
  - reflexivity.
  - reflexivity.
  - reflexivity.
  - reflexivity.
Defined.

Example nine_in_los_angeles_is_regular :
  exists u, (u + offset_at los_angeles u = 1742720400)%Z /\
    forall u', (u' + offset_at los_angeles u' = 1742720400)%Z -> u' = u.
Proof.
  exists 1742745600%Z. split; [reflexivity |].
  intros u'. unfold offset_at; simpl.
  destruct (Z.ltb_spec u' 1741514400); lia.
Qed.

End EvaluatorExamples.

(** ** The dispatcher: order of the store writes *)
Section DispatcherFacts.

Import Rq.

Context {σ : Type}.
Variable server : command -> σ -> reply * σ.
Variable restore : string -> gmap string string -> result (option string).
Variable config_loaded : bool.

Abbreviation enqueue := (DEL_enqueue_job_immediate server restore config_loaded).

#[local] Arguments truthy_reply : simpl never.

Ltac step_server :=
  match goal with
  | |- context [server ?c ?s] =>
      let r := fresh "r" in
      let s' := fresh "s" in
      let E := fresh "E" in
      destruct (server c s) as [r s'] eqn:E; destruct r; simpl
  | |- context [bool_decide ?P] => destruct (bool_decide P); simpl
  | |- context [restore ?j ?h] => destruct (restore j h); simpl
  | |- context [truthy_reply ?r] =>
      let T := fresh "T" in destruct (truthy_reply r) eqn:T; simpl
  end.

Ltac replay_server :=
  unfold replay; simpl;
  repeat match goal with
         | E : server ?c ?s = _ |- context [server ?c ?s] => rewrite E; simpl
         end;
  reflexivity.

Ltac in_trace H :=
  apply list_elem_of_In in H; simpl in H;
  repeat (destruct H as [H|H]); try contradiction; try discriminate H;
  inversion H; subst; clear H.

Ltac pick_queue_key :=
  match goal with
  | |- context [SADD "rq:queues" ?q] => exists q
  | |- _ => exists EmptyString
  end.

(** C6. Whatever the server answers, the writes that
    [DEL_enqueue_job_immediate] sends are, in order, the registration of
    the queue name and then the push of the job id; a push is only sent
    after a registration that was acknowledged with a truthy value; and
    when the push is not acknowledged, the caller gets an exception, the
    failed push is the last command sent, and the store is left as the
    server has it after exactly these commands. *)
Theorem enqueue_registers_then_pushes (existing_job_id : string) (w : world) :
  let r := fst (enqueue existing_job_id w) in
  let w' := snd (enqueue existing_job_id w) in
  exists new,
    trace w' = trace w ++ new /\
    store w' = replay server (store w) (map fst new) /\
    (exists queue_key,
       writes new `prefix_of`
         [SADD "rq:queues" queue_key; RPUSH queue_key existing_job_id]) /\
    (forall k v rp, (RPUSH k v, rp) ∈ new ->
       exists rs, (SADD "rq:queues" k, rs) ∈ new /\ truthy_reply rs = true) /\
    (forall k v rp, (RPUSH k v, rp) ∈ new -> truthy_reply rp = false ->
       r = Raise (push_failure rp) /\ last new = Some (RPUSH k v, rp)).
Proof.
  unfold DEL_enqueue_job_immediate, create_connection, job_ids, fetch,
    print, log_error, call, raise, ret, bind.
  destruct config_loaded; simpl.
  2: { exists []. rewrite app_nil_r. repeat split; try reflexivity.
       - exists EmptyString. now eexists.
       - intros k v rp H. inversion H.
       - inversion H.
       - inversion H. }
  repeat step_server;
    (eexists; split; [rewrite <- ?app_assoc; simpl; reflexivity |];
     split; [replay_server |];
     split; [pick_queue_key; unfold writes; simpl; eexists; reflexivity |];
     split;
     [ intros k v rp Hin; in_trace Hin;
       (eexists; split; [apply list_elem_of_In; simpl; eauto 6 | assumption])
     | intros k v rp Hin; in_trace Hin;
       intros Hf; first [congruence | split; reflexivity] ]).
Qed.

(** The equations of the monad and of one round trip. *)
Lemma bind_ok {A B} (m : M A) (k : A -> M B) (w w' : world (σ := σ)) (a : A) :
  m w = (Ok a, w') -> bind m k w = k a w'.
Proof. intros H. unfold bind. now rewrite H. Qed.

Lemma call_ok (c : command) (w : world) (r : reply) (s : σ) :
  server c (store w) = (r, s) -> (forall m, r <> Error m) ->
  call server c w
  = (Ok r, mkWorld s (trace w ++ [(c, r)]) (drawn w) (ticks w)
             (printed w) (logged w)).
Proof.
  intros H N. unfold call. rewrite H.
  destruct r; try reflexivity. exfalso; eapply N; reflexivity.
Qed.

Lemma create_connection_ok (w : world (σ := σ)) :
  config_loaded = true -> create_connection config_loaded w = (Ok tt, w).
Proof. intros H. unfold create_connection. now rewrite H. Qed.

Lemma print_ok (line : string) (w : world (σ := σ)) :
  print line w
  = (Ok tt, mkWorld (store w) (trace w) (drawn w) (ticks w)
              (printed w ++ [line]) (logged w)).
Proof. reflexivity. Qed.

Lemma fetch_ok (job_id : string) (w : world) (h : gmap string string) (s : σ)
    (o : option string) :
  server (HGETALL ("rq:job:" +:+ job_id)) (store w) = (Map h, s) -> h <> ∅ ->
  restore job_id h = Ok o ->
  fetch server restore job_id w
  = (Ok o,
     mkWorld s (trace w ++ [(HGETALL ("rq:job:" +:+ job_id), Map h)])
       (drawn w) (ticks w) (printed w) (logged w)).
Proof.
  intros H Hh Hr. unfold fetch.
  rewrite (bind_ok _ _ _ _ _ (call_ok _ _ _ _ H ltac:(discriminate))).
  rewrite bool_decide_false by exact Hh. rewrite Hr. reflexivity.
Qed.

(** The run of the function, read off the answers of the server and of
    the library. *)
Lemma enqueue_refused (existing_job_id : string) (w : world)
    (r1 rs : reply) (s1 s2 s3 : σ) (h : gmap string string)
    (o : option string) :
  config_loaded = true ->
  server (LRANGE "rq:queue:default") (store w) = (r1, s1) ->
  (forall m, r1 <> Error m) ->
  server (HGETALL ("rq:job:" +:+ existing_job_id)) s1 = (Map h, s2) ->
  h <> ∅ ->
  restore existing_job_id h = Ok o ->
  server (SADD "rq:queues" ("rq:queue:" +:+ str_origin o)) s2
  = (rs, s3) ->
  (forall m, rs <> Error m) ->
  truthy_reply rs = false ->
  fst (enqueue existing_job_id w) = Raise (IOError (str_falsy rs)) /\
  store (snd (enqueue existing_job_id w)) = s3.
Proof.
  intros Hc H1 N1 H2 Hh Hr H3 N3 T3.
  unfold DEL_enqueue_job_immediate, job_ids.
  erewrite bind_ok by (apply create_connection_ok, Hc).
  erewrite bind_ok by (apply call_ok; [exact H1 | exact N1]).
  erewrite bind_ok by apply print_ok.
  erewrite bind_ok by (apply fetch_ok; [exact H2 | exact Hh | exact Hr]).
  cbv zeta.
  erewrite bind_ok by (apply call_ok; [exact H3 | exact N3]).
  rewrite T3. split; reflexivity.
Qed.

Lemma enqueue_pushed (existing_job_id : string) (w : world)
    (r1 rs rp : reply) (s1 s2 s3 s4 : σ) (h : gmap string string)
    (o : option string) :
  config_loaded = true ->
  server (LRANGE "rq:queue:default") (store w) = (r1, s1) ->
  (forall m, r1 <> Error m) ->
  server (HGETALL ("rq:job:" +:+ existing_job_id)) s1 = (Map h, s2) ->
  h <> ∅ ->
  restore existing_job_id h = Ok o ->
  server (SADD "rq:queues" ("rq:queue:" +:+ str_origin o)) s2
  = (rs, s3) ->
  (forall m, rs <> Error m) ->
  truthy_reply rs = true ->
  server (RPUSH ("rq:queue:" +:+ str_origin o) existing_job_id) s3
  = (rp, s4) ->
  (forall m, rp <> Error m) ->
  truthy_reply rp = true ->
  fst (enqueue existing_job_id w)
  = Raise (AttributeError "'function' object has no attribute 'info'") /\
  store (snd (enqueue existing_job_id w)) = s4.
Proof.
  intros Hc H1 N1 H2 Hh Hr H3 N3 T3 H4 N4 T4.
  unfold DEL_enqueue_job_immediate, job_ids.
  erewrite bind_ok by (apply create_connection_ok, Hc).
  erewrite bind_ok by (apply call_ok; [exact H1 | exact N1]).
  erewrite bind_ok by apply print_ok.
  erewrite bind_ok by (apply fetch_ok; [exact H2 | exact Hh | exact Hr]).
  cbv zeta.
  erewrite bind_ok by (apply call_ok; [exact H3 | exact N3]).
  rewrite T3. cbn [negb].
  erewrite bind_ok by (apply call_ok; [exact H4 | exact N4]).
  rewrite T4. split; reflexivity.
Qed.

End DispatcherFacts.

(** ** The dispatcher on Redis *)
Section DispatcherOnRedis.

Import Rq.

Lemma queue_key_not_registry (o : string) : "rq:queue:" +:+ o <> "rq:queues".
Proof. simpl. discriminate. Qed.

Lemma redis_lrange_list (db : gmap string value) (key : string) :
  holds_list db key -> redis (LRANGE key) db = (Array (list_at db key), db).
Proof.
  unfold list_at. intros [H | [l H]]; simpl; rewrite H; reflexivity.
Qed.

Lemma redis_hgetall_hash (db : gmap string value) (key : string)
    (h : gmap string string) :
  db !! key = Some (VHash h) -> redis (HGETALL key) db = (Map h, db).
Proof. intros H. simpl. now rewrite H. Qed.

Lemma redis_sadd_member (db : gmap string value) (key member : string)
    (s : gset string) :
  db !! key = Some (VSet s) -> member ∈ s ->
  redis (SADD key member) db = (Integer 0, db).
Proof.
  intros H Hin. simpl. rewrite H. now rewrite decide_True.
Qed.

Lemma redis_sadd_new (db : gmap string value) (key member : string) :
  holds_set db key -> member ∉ set_at db key ->
  redis (SADD key member) db
  = (Integer 1, <[key := VSet ({[member]} ∪ set_at db key)]> db).
Proof.
  unfold set_at. intros [H | [s H]] Hn; simpl; rewrite H in *.
  - now rewrite union_empty_r_L.
  - now rewrite decide_False.
Qed.

Lemma redis_rpush_list (db : gmap string value) (key item : string) :
  holds_list db key ->
  redis (RPUSH key item) db
  = (Integer (Z.of_nat (length (list_at db key ++ [item]))),
     <[key := VList (list_at db key ++ [item])]> db).
Proof.
  unfold list_at. intros [H | [l H]]; simpl; rewrite H; reflexivity.
Qed.

Lemma rpush_acknowledged (l : list string) (item : string) :
  truthy_reply (Integer (Z.of_nat (length (l ++ [item])))) = true.
Proof.
  unfold truthy_reply. rewrite length_app. simpl.
  destruct (Z.eqb_spec (Z.of_nat (length l + 1)) 0); [lia | reflexivity].
Qed.

Section Run.

Variable restore : string -> gmap string string -> result (option string).
Variables (db : gmap string value) (existing_job_id : string).
Variable h : gmap string string.
Variable w : world (σ := gmap string value).

Abbreviation enqueue_redis := (DEL_enqueue_job_immediate redis restore true).

Hypothesis store_is_db : store w = db.
Hypothesis default_queue : holds_list db "rq:queue:default".
Hypothesis job_stored : db !! ("rq:job:" +:+ existing_job_id) = Some (VHash h).
Hypothesis job_nonempty : h <> ∅.

(** The library returns the job, with the origin that the hash holds. *)
Hypothesis job_restored : restore existing_job_id h = Ok (h !! "origin").

(** Past [fetch], when the queue name is already registered, Redis
    answers 0 to the registration, the code takes that for a failure and
    raises before the push: the store is unchanged. *)
Lemma enqueue_known_queue (s : gset string) :
  db !! "rq:queues" = Some (VSet s) ->
  queue_key_of h ∈ s ->
  fst (enqueue_redis existing_job_id w) = Raise (IOError "0") /\
  store (snd (enqueue_redis existing_job_id w)) = db.
Proof.
  intros Hs Hin.
  apply (enqueue_refused redis restore true existing_job_id w
           (Array (list_at db "rq:queue:default")) (Integer 0) db db db h
           (h !! "origin")).
  - reflexivity.
  - rewrite store_is_db. apply redis_lrange_list, default_queue.
  - discriminate.
  - apply redis_hgetall_hash, job_stored.
  - exact job_nonempty.
  - exact job_restored.
  - apply (redis_sadd_member _ _ _ _ Hs Hin).
  - discriminate.
  - reflexivity.
Qed.

(** Past [fetch], when the queue name is new, the set gains it, the list
    gains the id at the tail and nothing else changes; the call then
    raises on its last line. *)
Lemma enqueue_new_queue :
  holds_set db "rq:queues" ->
  queue_key_of h ∉ set_at db "rq:queues" ->
  holds_list db (queue_key_of h) ->
  let db' := store (snd (enqueue_redis existing_job_id w)) in
  set_at db' "rq:queues" = {[queue_key_of h]} ∪ set_at db "rq:queues" /\
  list_at db' (queue_key_of h) = list_at db (queue_key_of h) ++ [existing_job_id] /\
  (forall k, k <> "rq:queues" -> k <> queue_key_of h -> db' !! k = db !! k) /\
  fst (enqueue_redis existing_job_id w)
  = Raise (AttributeError "'function' object has no attribute 'info'").
Proof.
  intros Hset Hnew Hlist db'.
  assert (Hne : queue_key_of h <> "rq:queues") by apply queue_key_not_registry.
  pose (db1 := <["rq:queues" := VSet ({[queue_key_of h]} ∪ set_at db "rq:queues")]> db).
  assert (Hlist1 : holds_list db1 (queue_key_of h)).
  { unfold holds_list, db1. rewrite lookup_insert_ne by congruence. exact Hlist. }
  assert (Hl1 : list_at db1 (queue_key_of h) = list_at db (queue_key_of h)).
  { unfold list_at, db1. now rewrite lookup_insert_ne by congruence. }
  pose (l2 := list_at db (queue_key_of h) ++ [existing_job_id]).
  pose (db2 := <[queue_key_of h := VList l2]> db1).
  destruct (enqueue_pushed redis restore true existing_job_id w
              (Array (list_at db "rq:queue:default")) (Integer 1)
              (Integer (Z.of_nat (length l2))) db db db1 db2 h
              (h !! "origin"))
    as [Hraise Hstore].
  - reflexivity.
  - rewrite store_is_db. apply redis_lrange_list, default_queue.
  - discriminate.
  - apply redis_hgetall_hash, job_stored.
  - exact job_nonempty.
  - exact job_restored.
  - apply (redis_sadd_new _ _ _ Hset Hnew).
  - discriminate.
  - reflexivity.
  - unfold db2, l2. rewrite <- Hl1. apply redis_rpush_list, Hlist1.
  - discriminate.
  - apply rpush_acknowledged.
  - unfold db'. rewrite Hstore. repeat split.
    + unfold set_at, db2. rewrite lookup_insert_ne by congruence.
      unfold db1. now rewrite lookup_insert_eq.
    + unfold list_at, db2. now rewrite lookup_insert_eq.
    + intros k Hk1 Hk2. unfold db2. rewrite lookup_insert_ne by congruence.
      unfold db1. now rewrite lookup_insert_ne by congruence.
    + exact Hraise.
Qed.

End Run.

(** C1. A stored job whose queue name is already in the known-queue
    set. On the connection that [create_connection] opens, [Job.fetch]
    does not return the job: with a payload in the hash it raises
    [TypeError], without one [NoSuchJobError]. Either way the call raises
    on line 147, sends no write, and the queue's list does not grow. *)
Theorem enqueue_known_queue_raises :
  let out := DEL_enqueue_job_immediate redis restore_decoded true "j1"
               (fresh_world db_stored_job) in
  let bare := DEL_enqueue_job_immediate redis restore_decoded true "j1"
                (fresh_world db_known_queue) in
  set_at db_stored_job "rq:queues" = {["rq:queue:default"]} /\
  fst out = Raise TypeError /\
  writes (trace (snd out)) = [] /\
  list_at (store (snd out)) "rq:queue:default" = ["j0"] /\
  store (snd out) = db_stored_job /\
  fst bare = Raise (NoSuchJobError "j1") /\
  writes (trace (snd bare)) = [] /\
  store (snd bare) = db_known_queue.
Proof. intros out bare. repeat apply conj; vm_compute; reflexivity. Qed.

(** With a library that returns the job, the same call gets as far as
    the registration and is refused there, before the push. *)
Example registered_queue_is_refused :
  let out := DEL_enqueue_job_immediate redis restore_origin true "j1"
               (fresh_world db_stored_job) in
  fst out = Raise (IOError "0") /\
  writes (trace (snd out)) = [SADD "rq:queues" "rq:queue:default"] /\
  list_at (store (snd out)) "rq:queue:default" = ["j0"] /\
  store (snd out) = db_stored_job.
Proof. intros out. repeat apply conj; vm_compute; reflexivity. Qed.

Example enqueue_new_queue_example :
  let out := DEL_enqueue_job_immediate redis restore_origin true "j2"
               (fresh_world db_new_queue) in
  set_at (store (snd out)) "rq:queues" = {["rq:queue:short"; "rq:queue:default"]} /\
  list_at (store (snd out)) "rq:queue:short" = ["j2"] /\
  writes (trace (snd out))
  = [SADD "rq:queues" "rq:queue:short"; RPUSH "rq:queue:short" "j2"] /\
  fst out = Raise (AttributeError "'function' object has no attribute 'info'").
Proof. intros out. repeat apply conj; vm_compute; reflexivity. Qed.

(** The push fails after the registration went through: the caller gets
    [IOError], the queue name stays registered and the list is empty. *)
Example failing_push_keeps_registration :
  let out := DEL_enqueue_job_immediate redis_failing_push restore_origin true "j2"
               (fresh_world db_new_queue) in
  fst out = Raise (IOError "0") /\
  set_at (store (snd out)) "rq:queues" = {["rq:queue:short"; "rq:queue:default"]} /\
  list_at (store (snd out)) "rq:queue:short" = [] /\
  writes (trace (snd out))
  = [SADD "rq:queues" "rq:queue:short"; RPUSH "rq:queue:short" "j2"].
Proof. intros out. repeat apply conj; vm_compute; reflexivity. Qed.

End DispatcherOnRedis.

(** ** The queue job record *)
Section JobRecordFacts.

Import Rq.

Context {σ DateTime Bytes RQJob : Type}.
Variable jobs_site_prefix : string.
Variable uuid4 : nat -> string.
Variable now_utc : nat -> result DateTime.

Abbreviation construct :=
  (new_with_defaults (σ := σ) jobs_site_prefix uuid4 now_utc
     (Bytes := Bytes) (RQJob := RQJob)).

(** C7. A record returned by [new_with_defaults] has [started_at],
    [ended_at] and [enqueued_at] unset, status "queued" and timeout 3600;
    its key is the configured prefix, a bar and the identifier drawn for
    it, its fully qualified key is "rq:job:" followed by that key; the
    constructor exchanges nothing with the store and leaves it as it was. *)
Theorem new_with_defaults_record
    (w w' : world) (job : RQJobWrapper DateTime Bytes RQJob) :
  construct w = (Ok job, w') ->
  started_at job = None /\ ended_at job = None /\ enqueued_at job = None /\
  status job = Some "queued" /\ timeout job = 3600%Z /\
  job_key job = jobs_site_prefix +:+ "|" +:+ uuid4 (drawn w) /\
  job_key_short job = uuid4 (drawn w) /\
  fully_qualified_key job = "rq:job:" +:+ job_key job /\
  drawn w' = S (drawn w) /\
  store w' = store w /\ trace w' = trace w.
Proof.
  unfold new_with_defaults, draw_uuid, read_clock, ret, bind. simpl.
  destruct (now_utc (ticks w)) as [t1|e]; [| discriminate].
  destruct (now_utc (S (ticks w))) as [t2|e]; [| discriminate].
  intros [= <- <-]. simpl. repeat split; reflexivity.
Qed.

Lemma new_with_defaults_key
    (w w' : world) (job : RQJobWrapper DateTime Bytes RQJob) :
  construct w = (Ok job, w') ->
  job_key job = jobs_site_prefix +:+ "|" +:+ uuid4 (drawn w) /\
  drawn w' = S (drawn w).
Proof.
  unfold new_with_defaults, draw_uuid, read_clock, ret, bind. simpl.
  destruct (now_utc (ticks w)) as [t1|e]; [| discriminate].
  destruct (now_utc (S (ticks w))) as [t2|e]; [| discriminate].
  intros [= <- <-]. split; reflexivity.
Qed.

(** The constructor returns whenever the clock can be read. *)
Lemma new_with_defaults_returns (w : world) (t1 t2 : DateTime) :
  now_utc (ticks w) = Ok t1 -> now_utc (S (ticks w)) = Ok t2 ->
  exists job w', construct w = (Ok job, w') /\
    created_at job = t1 /\ last_heartbeat job = t2.
Proof.
  intros H1 H2. unfold new_with_defaults, draw_uuid, read_clock, ret, bind.
  simpl. rewrite H1, H2. eexists _, _. repeat split; reflexivity.
Qed.

(** Two records built one after the other have different keys when the
    generator does not repeat itself. *)
Lemma new_with_defaults_fresh
    (w w1 w2 : world) (j1 j2 : RQJobWrapper DateTime Bytes RQJob) :
  (forall m n, uuid4 m = uuid4 n -> m = n) ->
  construct w = (Ok j1, w1) -> construct w1 = (Ok j2, w2) ->
  job_key j1 <> job_key j2.
Proof.
  intros Hinj H1 H2.
  destruct (new_with_defaults_key _ _ _ H1) as [K1 D1].
  destruct (new_with_defaults_key _ _ _ H2) as [K2 _].
  rewrite K1, K2, D1. intros E.
  apply (inj (String.append jobs_site_prefix)) in E.
  injection E as E. apply Hinj in E. lia.
Qed.

End JobRecordFacts.

Section JobRecordExamples.

Import Rq.

Lemma new_with_defaults_record_witness :
  exists (job : RQJobWrapper Z unit unit) w',
    new_with_defaults "erp.farmtopeople.com" sample_uuid sample_clock
      (fresh_world db_known_queue) = (Ok job, w') /\
    job_key job = "erp.farmtopeople.com|11f83e81-83ea-4df2-aa7e-cd12d8dec779" /\
    fully_qualified_key job
    = "rq:job:erp.farmtopeople.com|11f83e81-83ea-4df2-aa7e-cd12d8dec779" /\
    started_at job = None /\ ended_at job = None /\ enqueued_at job = None /\
    status job = Some "queued" /\ timeout job = 3600%Z /\
    store w' = db_known_queue /\ trace w' = [].
Proof.
  destruct (new_with_defaults (Bytes := unit) (RQJob := unit)
              "erp.farmtopeople.com" sample_uuid sample_clock
              (fresh_world db_known_queue)) as [[job|e] w'] eqn:E.
  - exists job, w'. split; [reflexivity |].
    destruct (new_with_defaults_record _ _ _ _ _ _ E)
      as (H1 & H2 & H3 & H4 & H5 & H6 & H7 & H8 & H9 & H10 & H11).
    rewrite H8, H6.
    repeat split; assumption || reflexivity.
  - vm_compute in E. discriminate E.
Defined.

End JobRecordExamples.

Section TriggerFacts.

Import Structs.

Variable post : Request -> result Response.
Variable frappe_base_url : string.
Variable webserver_token : string.
Variable webserver_host_header : option string.

Abbreviation request_for :=
  (trigger_request frappe_base_url webserver_token webserver_host_header).
Abbreviation trigger :=
  (enqueue_for_next_available_worker post frappe_base_url webserver_token
     webserver_host_header).

(** The outcome of the call, by the answer of the endpoint. The one
    request is sent with a timeout of 30 seconds.
    When the body of the response decodes as JSON, the call succeeds
    exactly when the status code is 200, and for any other status code it
    raises [IOError] carrying the decoded body; when the body does not
    decode, the call raises the decoding error, whatever the status code. *)
Theorem trigger_outcome (id : string) (response : Response) :
  post (request_for id) = Ok response ->
  request_timeout (request_for id) = 30%Z /\
  match json response with
  | Ok body =>
      (fst (trigger id) = Ok tt <-> status_code response = 200%Z) /\
      (status_code response <> 200%Z ->
       fst (trigger id) = Raise (IOError (unexpected_response body)))
  | Raise e => fst (trigger id) = Raise e
  end.
Proof.
  intros H. split; [reflexivity |].
  unfold enqueue_for_next_available_worker. rewrite H.
  destruct (json response) as [body|e]; [| reflexivity].
  destruct (Z.eqb_spec (status_code response) 200) as [E|E]; simpl.
  - split; [tauto | contradiction].
  - split; [| reflexivity]. split; [discriminate | contradiction].
Qed.

(** The outcome depends on the network only through the answer to that
    one request. *)
Lemma trigger_single_request (post' : Request -> result Response) (id : string) :
  post (request_for id) = post' (request_for id) ->
  trigger id
  = enqueue_for_next_available_worker post' frappe_base_url webserver_token
      webserver_host_header id.
Proof.
  intros H. unfold enqueue_for_next_available_worker. now rewrite H.
Qed.

End TriggerFacts.

Section TriggerExamples.

Import Structs.

Lemma trigger_outcome_witness :
  let post := fun _ : Request => Ok accepted_response in
  request_timeout (trigger_request "http://localhost:8000" "token 1:2" None "TS-000001")
  = 30%Z /\
  ((fst (enqueue_for_next_available_worker post "http://localhost:8000"
           "token 1:2" None "TS-000001") = Ok tt
    <-> status_code accepted_response = 200%Z) /\
   (status_code accepted_response <> 200%Z ->
    fst (enqueue_for_next_available_worker post "http://localhost:8000"
           "token 1:2" None "TS-000001")
    = Raise (IOError (unexpected_response "{'message': 'ok'}")))).
Proof.
  intros post.
  apply (trigger_outcome post "http://localhost:8000" "token 1:2" None
           "TS-000001" accepted_response).
  reflexivity.
Defined.

(** C9. The endpoint answers 200 with a body that is not JSON: the debug
    line formats [response.json()] before the status code is looked at,
    and the call raises the decoding error instead of returning. *)
Theorem trigger_raises_on_200 :
  let post := fun _ : Request => Ok undecodable_response in
  status_code undecodable_response = 200%Z /\
  fst (enqueue_for_next_available_worker post "http://localhost:8000"
         "token 1:2" None "TS-000001") = Raise JSONDecodeError.
Proof. split; reflexivity. Qed.

End TriggerExamples.

(** ** The normaliser on unpadded input *)
Section CronUnpadded.

Lemma rstrip_idempotent (s : string) : rstrip (rstrip s) = rstrip s.
Proof.
  induction s as [|c r IH]; simpl; [reflexivity |].
  destruct (rstrip r) as [|a r'] eqn:E.
  - destruct (isspace c) eqn:Ec; simpl; [reflexivity | now rewrite Ec].
  - change (rstrip (String c (String a r')) = String c (String a r')).
    rewrite rstrip_cons_nonempty; rewrite IH; [reflexivity | discriminate].
Qed.

Lemma strip_fixed_rstrip (s : string) : strip s = s -> rstrip s = s.
Proof.
  intros H. rewrite <- H at 1. unfold strip. rewrite rstrip_idempotent. exact H.
Qed.

Lemma strip_fixed_elements (s : string) :
  strip s = s -> cron_elements s = split " " s.
Proof. intros H. unfold cron_elements. now rewrite H. Qed.

Lemma strip_fixed_not_blank (s : string) :
  strip s = s -> 1 < length (cron_elements s) -> blank s = false.
Proof.
  intros H Hn. apply Bool.not_true_iff_false. intros Hb.
  apply strip_empty_iff in Hb. rewrite H in Hb. subst s. simpl in Hn. lia.
Qed.

(** X3. On a string without surrounding whitespace, the expression that
    [cron_str_to_cron_str7] returns has exactly seven space-separated
    elements and is returned unchanged when passed through the function
    again. *)
Theorem cron_str7_idempotent (s x : string) :
  strip s = s ->
  cron_str_to_cron_str7 s = Ok x ->
  length (split " " x) = 7 /\ cron_str_to_cron_str7 x = Ok x.
Proof.
  intros Hs. pose proof (strip_fixed_rstrip s Hs) as Hr.
  pose proof (strip_fixed_not_blank s Hs) as Hb.
  unfold cron_str_to_cron_str7 at 1. rewrite (strip_fixed_elements s Hs) in *.
  rewrite split_length in *.
  destruct (count " " s) as [|[|[|[|[|[|[|n]]]]]]] eqn:Ec;
    intros [= <-].
  - assert (Hx : strip ("0 " +:+ s +:+ " *") = "0 " +:+ s +:+ " *").
    { assert (Ha : "0 " +:+ s +:+ " *" = ("0 " +:+ s +:+ " ") +:+ "*")
        by (rewrite !string_app_assoc; reflexivity).
      unfold strip. change (lstrip ("0 " +:+ s +:+ " *")) with ("0 " +:+ s +:+ " *").
      rewrite Ha, rstrip_app by reflexivity. reflexivity. }
    assert (Hn : length (split " " ("0 " +:+ s +:+ " *")) = 7).
    { rewrite split_length. simpl. rewrite count_app, Ec. reflexivity. }
    split; [exact Hn |].
    unfold cron_str_to_cron_str7. unfold cron_elements.
    change (String "0" (String " " (s +:+ " *"))) with ("0 " +:+ s +:+ " *").
    rewrite Hx, Hn. reflexivity.
  - assert (Hx : strip ("0 " +:+ s) = "0 " +:+ s).
    { unfold strip. change (lstrip ("0 " +:+ s)) with ("0 " +:+ s).
      rewrite rstrip_app by (apply Hb; lia). now rewrite Hr. }
    assert (Hn : length (split " " ("0 " +:+ s)) = 7).
    { rewrite split_length. simpl. rewrite Ec. reflexivity. }
    split; [exact Hn |].
    unfold cron_str_to_cron_str7. unfold cron_elements.
    change (String "0" (String " " s)) with ("0 " +:+ s).
    rewrite Hx, Hn. reflexivity.
  - assert (Hn : length (split " " s) = 7) by (rewrite split_length; lia).
    split; [exact Hn |].
    unfold cron_str_to_cron_str7. unfold cron_elements. rewrite Hs, Hn.
    reflexivity.
Qed.

Lemma cron_str7_idempotent_witness :
  strip "0 9 * * 1-5" = "0 9 * * 1-5" /\
  cron_str_to_cron_str7 "0 9 * * 1-5" = Ok "0 0 9 * * 1-5 *" /\
  length (split " " "0 0 9 * * 1-5 *") = 7 /\
  cron_str_to_cron_str7 "0 0 9 * * 1-5 *" = Ok "0 0 9 * * 1-5 *".
Proof.
  split; [reflexivity |]. split; [reflexivity |].
  apply (cron_str7_idempotent "0 9 * * 1-5"); reflexivity.
Defined.

End CronUnpadded.

(** ** What is rendered for croniter *)
Section CronRendering.

Lemma render_token (t : string) :
  truthy t = true -> value_or_wildcard (nonwildcard_or_none t) = t.
Proof.
  intros Ht. unfold nonwildcard_or_none.
  destruct (String.eqb_spec t "*") as [-> | Hne]; [reflexivity |].
  simpl. now rewrite Ht.
Qed.

Lemma from_string_seven_tokens (t0 t1 t2 t3 t4 t5 t6 : string) :
  Forall spacefree [t0; t1; t2; t3; t4; t5; t6] ->
  blank t0 = false -> blank t6 = false ->
  from_string (join " " [t0; t1; t2; t3; t4; t5; t6])
  = Ok (mkCronStruct (nonwildcard_or_none t0) (nonwildcard_or_none t1)
          (nonwildcard_or_none t2) (nonwildcard_or_none t3)
          (nonwildcard_or_none t4) (nonwildcard_or_none t5)
          (nonwildcard_or_none t6)).
Proof.
  intros Hall H0 H6. set (s := join " " [t0; t1; t2; t3; t4; t5; t6]).
  assert (Hn : length (cron_elements s) = 7)
    by now apply (cron_elements_join t0 [t1; t2; t3; t4; t5] t6).
  rewrite from_string_eq. unfold cron_str_to_cron_str7. rewrite Hn.
  cbn [rbind]. unfold s.
  rewrite split_join by (discriminate || assumption). reflexivity.
Qed.

(** X1. For five non-empty tokens separated by single spaces, without
    surrounding whitespace, the five-field string rendered for croniter
    from the parsed structure is the input itself. *)
Theorem to_string_five_tokens (t1 t2 t3 t4 t5 : string) :
  Forall spacefree [t1; t2; t3; t4; t5] ->
  Forall (fun t => truthy t = true) [t1; t2; t3; t4; t5] ->
  blank t1 = false -> blank t5 = false ->
  exists c,
    from_string (join " " [t1; t2; t3; t4; t5]) = Ok c /\
    to_string c = join " " [t1; t2; t3; t4; t5].
Proof.
  intros Hs Ht H1 H5. eexists. split.
  - now apply from_string_five_tokens.
  - repeat match goal with
           | H : Forall _ (_ :: _) |- _ => inversion H; subst; clear H
           end.
    unfold to_string; simpl. now rewrite !render_token.
Qed.

Lemma to_string_five_tokens_witness :
  exists c,
    from_string (join " " ["*/30"; "9"; "*"; "*"; "1-5"]) = Ok c /\
    to_string c = join " " ["*/30"; "9"; "*"; "*"; "1-5"].
Proof.
  apply to_string_five_tokens; repeat constructor.
Defined.

(** X2. For seven non-empty tokens separated by single spaces, without
    surrounding whitespace, [to_string7] of the parsed structure is the
    input itself, and [to_string] is the input without its first and last
    token. *)
Theorem to_string7_seven_tokens (t0 t1 t2 t3 t4 t5 t6 : string) :
  Forall spacefree [t0; t1; t2; t3; t4; t5; t6] ->
  Forall (fun t => truthy t = true) [t0; t1; t2; t3; t4; t5; t6] ->
  blank t0 = false -> blank t6 = false ->
  exists c,
    from_string (join " " [t0; t1; t2; t3; t4; t5; t6]) = Ok c /\
    to_string7 c = join " " [t0; t1; t2; t3; t4; t5; t6] /\
    to_string c = join " " [t1; t2; t3; t4; t5].
Proof.
  intros Hs Ht H0 H6. eexists. split.
  - now apply from_string_seven_tokens.
  - repeat match goal with
           | H : Forall _ (_ :: _) |- _ => inversion H; subst; clear H
           end.
    unfold to_string7, to_string; simpl. now rewrite !render_token.
Qed.

Lemma to_string7_seven_tokens_witness :
  exists c,
    from_string (join " " ["30"; "0"; "9"; "*"; "*"; "1-5"; "2030"]) = Ok c /\
    to_string7 c = join " " ["30"; "0"; "9"; "*"; "*"; "1-5"; "2030"] /\
    to_string c = join " " ["0"; "9"; "*"; "*"; "1-5"].
Proof.
  apply to_string7_seven_tokens; repeat constructor.
Defined.

End CronRendering.

(** ** The cron evaluator: what goes in and what comes out *)
Section EvaluatorMore.

Import Evaluator.

Context {DateTime Naive TZ CronIter : Type}.
Variable ZoneInfo : string -> result TZ.
Variable now : TZ -> DateTime.
Variable croniter : string -> DateTime -> result CronIter.
Variable get_next : CronIter -> result (DateTime * CronIter).
Variable make_datetime_naive : DateTime -> result Naive.
Variable localize_datetime : Naive -> TZ -> result DateTime.
Variable astimezone : DateTime -> TZ -> DateTime.
Variable date_day : DateTime -> Z.
Variable str_datetime : DateTime -> string.
Variable time_zone_string : string.

Abbreviation evaluate' :=
  (tz_cron_to_utc_datetimes ZoneInfo now croniter get_next make_datetime_naive
     localize_datetime astimezone date_day str_datetime time_zone_string).
Abbreviation relocalized' :=
  (relocalize ZoneInfo make_datetime_naive localize_datetime astimezone).
Abbreviation loop' :=
  (localize_loop ZoneInfo make_datetime_naive localize_datetime astimezone
     date_day str_datetime).

(** X4. The seconds and the year of a seven-field expression never reach
    the calculator: the evaluator gives for seven tokens exactly what it
    gives for the five tokens in the middle. *)
Theorem evaluator_ignores_seconds_and_year
    (t0 t1 t2 t3 t4 t5 t6 : string)
    (tza : tz_arg) (dta : dt_arg) (n : Z) (cron_is_utc : bool)
    (log : list string) :
  Forall spacefree [t0; t1; t2; t3; t4; t5; t6] ->
  blank t0 = false -> blank t1 = false ->
  blank t5 = false -> blank t6 = false ->
  evaluate' (join " " [t0; t1; t2; t3; t4; t5; t6]) tza dta n cron_is_utc log
  = evaluate' (join " " [t1; t2; t3; t4; t5]) tza dta n cron_is_utc log.
Proof.
  intros Hall H0 H1 H5 H6.
  assert (Hfive : Forall spacefree [t1; t2; t3; t4; t5]).
  { inversion Hall as [|? ? _ Hrest]; subst.
    change [t1; t2; t3; t4; t5; t6] with ([t1; t2; t3; t4; t5] ++ [t6]) in Hrest.
    now apply Forall_app in Hrest as [Hrest _]. }
  unfold tz_cron_to_utc_datetimes.
  rewrite (from_string_seven_tokens t0 t1 t2 t3 t4 t5 t6 Hall H0 H6).
  rewrite (from_string_five_tokens t1 t2 t3 t4 t5 Hfive H1 H5).
  reflexivity.
Qed.

(** X5. Whenever the evaluator returns, it returns as many instants as
    were asked for (none for a count of zero or less). *)
Theorem evaluator_result_length
    (s : string) (tza : tz_arg) (dta : dt_arg) (n : Z) (cron_is_utc : bool)
    (log : list string) (out : list DateTime) :
  fst (evaluate' s tza dta n cron_is_utc log) = Ok out ->
  length out = Z.to_nat n.
Proof.
  unfold tz_cron_to_utc_datetimes, bind, lift.
  destruct (resolve_timezone ZoneInfo time_zone_string tza) as [tz|];
    [| discriminate].
  destruct (resolve_reference ZoneInfo now dta) as [start|]; [| discriminate].
  destruct (from_string s) as [c|]; [| discriminate].
  destruct (calculator_output croniter get_next (to_string c) start n)
    as [raw|] eqn:Eraw; [| discriminate].
  assert (Hraw : length raw = Z.to_nat n).
  { unfold calculator_output in Eraw.
    destruct (croniter (to_string c) start) as [it|]; [| discriminate].
    now apply (get_nexts_length get_next it). }
  destruct (hour_is_wildcard c); [now intros [= <-] |].
  destruct cron_is_utc; [now intros [= <-] |].
  rewrite localize_loop_images. intros Hout.
  apply map_result_lookup in Hout as [Hlen _]. lia.
Qed.

Lemma localize_loop_log (tz : TZ) (raw acc out : list DateTime) (log : list string) :
  map_result (relocalized' tz) raw = Ok out ->
  snd (loop' tz raw acc log) = log ++ day_messages date_day str_datetime raw out.
Proof.
  revert acc out log. induction raw as [|d raw IH]; intros acc out log; simpl.
  - intros [= <-]. now rewrite app_nil_r.
  - unfold relocalize at 1. unfold bind, lift.
    destruct (make_datetime_naive d) as [nv|]; simpl; [| discriminate].
    destruct (localize_datetime nv tz) as [a|]; simpl; [| discriminate].
    destruct (ZoneInfo "UTC") as [utc|]; simpl; [| discriminate].
    destruct (map_result (relocalized' tz) raw) as [rest|] eqn:E; simpl;
      [| discriminate].
    intros [= <-]. unfold day_messages. simpl.
    destruct (Z.eqb (date_day d) (date_day (astimezone a utc))); simpl.
    + now apply IH.
    + rewrite (IH _ rest) by reflexivity.
      unfold day_messages. now rewrite <- app_assoc.
Qed.

(** X6. In the local-to-UTC branch, a run that returns adds to the log
    exactly one line for every position where the corrected instant falls
    on another day of the month than the calculator output, in order, and
    nothing else. *)
Theorem evaluator_logs_day_changes
    (s : string) (tza : tz_arg) (dta : dt_arg) (n : Z)
    (tz : TZ) (start : DateTime) (c : CronStruct) (h : string)
    (raw out : list DateTime) (log : list string) :
  resolve_timezone ZoneInfo time_zone_string tza = Ok tz ->
  resolve_reference ZoneInfo now dta = Ok start ->
  from_string s = Ok c ->
  hour c = Some h ->
  calculator_output croniter get_next (to_string c) start n = Ok raw ->
  fst (evaluate' s tza dta n false log) = Ok out ->
  snd (evaluate' s tza dta n false log)
  = log ++ day_messages date_day str_datetime raw out.
Proof.
  intros Htz Hstart Hc Hh Hraw.
  rewrite (evaluate_local_branch ZoneInfo now croniter get_next
             make_datetime_naive localize_datetime astimezone date_day
             str_datetime time_zone_string s tza dta n tz start c h raw log)
    by assumption.
  rewrite localize_loop_images. apply localize_loop_log.
Qed.

End EvaluatorMore.

Section EvaluatorMoreExamples.

Import Evaluator Calendar.

Abbreviation run_evening :=
  (tz_cron_to_utc_datetimes ZoneInfo now croniter_evening get_next_evening
     make_datetime_naive localize_datetime astimezone date_day str_datetime
     "America/Los_Angeles").

Lemma evaluator_ignores_seconds_and_year_witness :
  tz_cron_to_utc_datetimes ZoneInfo now croniter get_next make_datetime_naive
    localize_datetime astimezone date_day str_datetime "America/Los_Angeles"
    (join " " ["30"; "0"; "9"; "*"; "*"; "*"; "2030"])
    (TzStr "America/Los_Angeles") DtNone 2%Z false []
  = tz_cron_to_utc_datetimes ZoneInfo now croniter get_next make_datetime_naive
      localize_datetime astimezone date_day str_datetime "America/Los_Angeles"
      (join " " ["0"; "9"; "*"; "*"; "*"])
      (TzStr "America/Los_Angeles") DtNone 2%Z false [].
Proof.
  apply evaluator_ignores_seconds_and_year; repeat constructor.
Defined.

Lemma evaluator_result_length_witness :
  let out := [mkDateTime 1742745600 utc; mkDateTime 1742832000 utc] in
  fst (tz_cron_to_utc_datetimes ZoneInfo now croniter get_next
         make_datetime_naive localize_datetime astimezone date_day
         str_datetime "America/Los_Angeles" "0 9 * * *"
         (TzStr "America/Los_Angeles") DtNone 2%Z false []) = Ok out /\
  length out = Z.to_nat 2.
Proof.
  intros out. split; [reflexivity |].
  apply (evaluator_result_length ZoneInfo now croniter get_next
           make_datetime_naive localize_datetime astimezone date_day
           str_datetime "America/Los_Angeles" "0 9 * * *"
           (TzStr "America/Los_Angeles") DtNone 2%Z false []).
  reflexivity.
Defined.

Lemma evaluator_logs_day_changes_witness :
  let raw := [mkDateTime 1742673600 utc] in
  let out := [mkDateTime 1742698800 utc] in
  fst (run_evening "0 20 * * *" (TzStr "America/Los_Angeles") DtNone 1%Z false [])
  = Ok out /\
  day_messages date_day str_datetime raw out
  = ["Original and new 'utc_datetime' fall on different days (1742673600 vs 1742698800)"] /\
  snd (run_evening "0 20 * * *" (TzStr "America/Los_Angeles") DtNone 1%Z false [])
  = [] ++ day_messages date_day str_datetime raw out.
Proof.
  intros raw out. split; [reflexivity |]. split; [reflexivity |].
  apply (evaluator_logs_day_changes ZoneInfo now croniter_evening
           get_next_evening make_datetime_naive localize_datetime astimezone
           date_day str_datetime "America/Los_Angeles" "0 20 * * *"
           (TzStr "America/Los_Angeles") DtNone 1%Z los_angeles (now utc)
           (mkCronStruct (Some "0") (Some "0") (Some "20") None None None None)
           "20" raw out []);
    reflexivity.
Defined.

End EvaluatorMoreExamples.

(** ** Schedules: from the row to the run times *)
Section ScheduleFacts.

Import Evaluator Schedules.

Context {DateTime Naive TZ CronIter : Type}.
Variable ZoneInfo : string -> result TZ.
Variable now : TZ -> DateTime.
Variable croniter : string -> DateTime -> result CronIter.
Variable get_next : CronIter -> result (DateTime * CronIter).
Variable make_datetime_naive : DateTime -> result Naive.
Variable localize_datetime : Naive -> TZ -> result DateTime.
Variable astimezone : DateTime -> TZ -> DateTime.
Variable date_day : DateTime -> Z.
Variable str_datetime : DateTime -> string.
Variable time_zone_string : string.
Variable get_task_schedule_by_id : string -> result (option schedule_row).

Abbreviation runtimes :=
  (get_next_runtimes ZoneInfo now croniter get_next make_datetime_naive
     localize_datetime astimezone date_day str_datetime time_zone_string).
Abbreviation load := (init_from_schedule_key get_task_schedule_by_id).

(** X7. A schedule loaded from a row whose run frequency is missing,
    empty or 'Cron Style' is evaluated as local time: when its cron string
    has a specific hour, its run times are the calculator output
    re-localised element by element. *)
Theorem cron_style_schedule_is_relocalized
    (key : string) (row : schedule_row) (dta : dt_arg) (n : Z)
    (tz : TZ) (start : DateTime) (c : CronStruct) (h : string)
    (raw : list DateTime) (log : list string) :
  get_task_schedule_by_id key = Ok (Some row) ->
  row_run_frequency row = None \/ row_run_frequency row = Some EmptyString \/
    row_run_frequency row = Some "Cron Style" ->
  resolve_timezone ZoneInfo time_zone_string
    (timezone_argument (row_cron_timezone row)) = Ok tz ->
  resolve_reference ZoneInfo now dta = Ok start ->
  from_string (row_cron_string row) = Ok c ->
  hour c = Some h ->
  calculator_output croniter get_next (to_string c) start n = Ok raw ->
  exists schedule,
    load key = Ok schedule /\
    fst (runtimes schedule dta n log)
    = map_result
        (relocalize ZoneInfo make_datetime_naive localize_datetime astimezone tz)
        raw.
Proof.
  intros Hrow Hfreq Htz Hstart Hc Hh Hraw.
  unfold init_from_schedule_key. rewrite Hrow. cbn [rbind].
  eexists. split; [reflexivity |].
  unfold get_next_runtimes. cbn [run_frequency cron_string cron_timezone].
  assert (Hstyle : or_cron_style (row_run_frequency row) = "Cron Style")
    by (destruct Hfreq as [-> | [-> | ->]]; reflexivity).
  rewrite Hstyle. cbn [String.eqb Ascii.eqb Bool.eqb negb andb].
  rewrite (evaluate_local_branch ZoneInfo now croniter get_next
             make_datetime_naive localize_datetime astimezone date_day
             str_datetime time_zone_string _ _ dta n tz start c h raw log)
    by assumption.
  apply localize_loop_images.
Qed.

(** X8. A schedule loaded from a row with any other run frequency is
    taken to be in UTC already: its run times are the calculator output
    as it is, whatever the hour field and the timezone. *)
Theorem other_frequency_schedule_is_unmodified
    (key : string) (row : schedule_row) (f : string) (dta : dt_arg) (n : Z)
    (tz : TZ) (start : DateTime) (c : CronStruct) (log : list string) :
  get_task_schedule_by_id key = Ok (Some row) ->
  row_run_frequency row = Some f ->
  f <> EmptyString -> f <> "Cron Style" ->
  resolve_timezone ZoneInfo time_zone_string
    (timezone_argument (row_cron_timezone row)) = Ok tz ->
  resolve_reference ZoneInfo now dta = Ok start ->
  from_string (row_cron_string row) = Ok c ->
  exists schedule,
    load key = Ok schedule /\
    runtimes schedule dta n log
    = (calculator_output croniter get_next (to_string c) start n, log).
Proof.
  intros Hrow Hfreq Hne Hstyle Htz Hstart Hc.
  unfold init_from_schedule_key. rewrite Hrow. cbn [rbind].
  eexists. split; [reflexivity |].
  unfold get_next_runtimes. cbn [run_frequency cron_string cron_timezone].
  rewrite Hfreq. unfold or_cron_style.
  destruct f as [|a f']; [contradiction |]. cbn [truthy].
  apply String.eqb_neq in Hstyle. rewrite Hstyle. cbn [negb].
  unfold tz_cron_to_utc_datetimes, Evaluator.bind, Evaluator.lift.
  rewrite Htz, Hstart, Hc.
  destruct (calculator_output croniter get_next (to_string c) start n);
    [| reflexivity].
  destruct (hour_is_wildcard c); reflexivity.
Qed.

End ScheduleFacts.

Section ScheduleExamples.

Import Evaluator Calendar Schedules.

Lemma cron_style_schedule_is_relocalized_witness :
  exists schedule,
    init_from_schedule_key (fun _ => Ok (Some (sample_row None))) "TS-000001"
    = Ok schedule /\
    fst (get_next_runtimes ZoneInfo now croniter get_next make_datetime_naive
           localize_datetime astimezone date_day str_datetime
           "America/Los_Angeles" schedule DtNone 2%Z [])
    = map_result
        (relocalize ZoneInfo make_datetime_naive localize_datetime astimezone
           los_angeles) raw_daily_nine.
Proof.
  apply (cron_style_schedule_is_relocalized ZoneInfo now croniter get_next
           make_datetime_naive localize_datetime astimezone date_day
           str_datetime "America/Los_Angeles"
           (fun _ => Ok (Some (sample_row None))) "TS-000001" (sample_row None)
           DtNone 2%Z los_angeles (now utc) daily_nine "9" raw_daily_nine []).
  - reflexivity.
  - left. reflexivity.
  - reflexivity.
  - reflexivity.
  - reflexivity.
  - reflexivity.
  - reflexivity.
Defined.

Lemma other_frequency_schedule_is_unmodified_witness :
  exists schedule,
    init_from_schedule_key (fun _ => Ok (Some (sample_row (Some "Daily"))))
      "TS-000001" = Ok schedule /\
    get_next_runtimes ZoneInfo now croniter get_next make_datetime_naive
      localize_datetime astimezone date_day str_datetime
      "America/Los_Angeles" schedule DtNone 2%Z []
    = (calculator_output croniter get_next (to_string daily_nine) (now utc) 2%Z, []).
Proof.
  apply (other_frequency_schedule_is_unmodified ZoneInfo now croniter get_next
           make_datetime_naive localize_datetime astimezone date_day
           str_datetime "America/Los_Angeles"
           (fun _ => Ok (Some (sample_row (Some "Daily")))) "TS-000001"
           (sample_row (Some "Daily")) "Daily" DtNone 2%Z los_angeles (now utc)
           daily_nine []).
  - reflexivity.
  - reflexivity.
  - discriminate.
  - discriminate.
  - reflexivity.
  - reflexivity.
  - reflexivity.
Defined.

End ScheduleExamples.

(** ** Schedules: from the schedule to the job record *)
Section ScheduleJobFacts.

Import Rq Schedules.

Context {σ DateTime Bytes RQJob : Type}.
Variable jobs_site_prefix : string.
Variable uuid4 : nat -> string.
Variable now_utc : nat -> result DateTime.
Variable get_task_by_id : string -> result (option BtuTask).
Variable get_pickled_function_from_web : string -> option string -> result Bytes.

Abbreviation wrap :=
  (to_rq_job_wrapper (σ := σ) (RQJob := RQJob) jobs_site_prefix uuid4 now_utc
     get_task_by_id get_pickled_function_from_web).

(** X9. [to_rq_job_wrapper] never exchanges anything with the store.
    A record it returns keeps the identity and the defaults of
    [new_with_defaults] (key, fully qualified key, status "queued", unset
    timestamps), takes origin and description from the schedule, carries
    the fetched payload, and has the timeout of the task in place of the
    default. *)
Theorem to_rq_job_wrapper_outcome (self : BtuTaskSchedule) (w : world) :
  let r := fst (wrap self w) in
  let w' := snd (wrap self w) in
  store w' = store w /\ trace w' = trace w /\
  match r with
  | Ok job =>
      exists task payload,
        get_task_by_id (task_key self) = Ok (Some task) /\
        get_pickled_function_from_web (task_key self) (Some (id self))
        = Ok payload /\
        data job = Some payload /\
        timeout job = max_task_duration task /\
        origin job = queue_name self /\
        description job = task_description self /\
        status job = Some "queued" /\
        job_key job = jobs_site_prefix +:+ "|" +:+ uuid4 (drawn w) /\
        fully_qualified_key job = "rq:job:" +:+ job_key job /\
        started_at job = None /\ ended_at job = None /\ enqueued_at job = None
  | Raise _ => True
  end.
Proof.
  unfold to_rq_job_wrapper, new_with_defaults, init_from_task_key, Schedules.lift,
    draw_uuid, read_clock, Rq.ret, Rq.bind. simpl.
  destruct (now_utc (ticks w)) as [t1|]; simpl; [| auto].
  destruct (now_utc (S (ticks w))) as [t2|]; simpl; [| auto].
  destruct (get_task_by_id (task_key self)) as [[task|]|]; simpl; [| auto | auto].
  destruct (get_pickled_function_from_web (task_key self) (Some (id self)))
    as [payload|]; simpl; [| auto].
  repeat split. exists task, payload. repeat split; reflexivity.
Qed.

(** X10. When the task of the schedule has no row, [to_rq_job_wrapper]
    raises [IOError] naming the task key; the store is untouched, but an
    identifier has been drawn for the record that is not returned. *)
Theorem to_rq_job_wrapper_missing_task
    (self : BtuTaskSchedule) (w : world) (t1 t2 : DateTime) :
  now_utc (ticks w) = Ok t1 -> now_utc (S (ticks w)) = Ok t2 ->
  get_task_by_id (task_key self) = Ok None ->
  fst (wrap self w)
  = Raise (IOError ("No SQL row returned by get_task_by_id() for primary key = '"
                    +:+ task_key self +:+ "'")) /\
  store (snd (wrap self w)) = store w /\
  trace (snd (wrap self w)) = trace w /\
  drawn (snd (wrap self w)) = S (drawn w).
Proof.
  intros H1 H2 Ht.
  unfold to_rq_job_wrapper, new_with_defaults, init_from_task_key, Schedules.lift,
    draw_uuid, read_clock, Rq.ret, Rq.bind. simpl.
  rewrite H1. simpl. rewrite H2. simpl. rewrite Ht. simpl.
  repeat split; reflexivity.
Qed.

End ScheduleJobFacts.

Section ScheduleJobExamples.

Import Rq Schedules.

Lemma to_rq_job_wrapper_missing_task_witness :
  let w := fresh_world db_known_queue in
  let out := to_rq_job_wrapper (Bytes := string) (RQJob := unit)
               "erp.farmtopeople.com" sample_uuid sample_clock
               (fun _ => Ok None) (fun _ _ => Ok "payload") sample_schedule w in
  fst out
  = Raise (IOError "No SQL row returned by get_task_by_id() for primary key = 'TASK-000001'") /\
  store (snd out) = db_known_queue /\ trace (snd out) = [] /\
  drawn (snd out) = 1.
Proof.
  intros w out.
  apply (to_rq_job_wrapper_missing_task (Bytes := string) (RQJob := unit)
           "erp.farmtopeople.com" sample_uuid sample_clock (fun _ => Ok None)
           (fun _ _ => Ok "payload") sample_schedule w 1742662860%Z 1742662861%Z);
    reflexivity.
Defined.

Example to_rq_job_wrapper_example :
  let out := to_rq_job_wrapper (Bytes := string) (RQJob := unit)
               "erp.farmtopeople.com" sample_uuid sample_clock
               (fun _ => Ok (Some sample_task)) (fun _ _ => Ok "payload")
               sample_schedule (fresh_world db_known_queue) in
  exists job,
    fst out = Ok job /\ timeout job = 600%Z /\
    origin job = "erpnext-mybench:default" /\ data job = Some "payload".
Proof. eexists. repeat split; reflexivity. Qed.

End ScheduleJobExamples.

(** ** The dispatcher on Redis: what a caller can rely on *)
Section DispatcherOnRedisMore.

Import Rq.

Variable restore : string -> gmap string string -> result (option string).

Abbreviation enqueue_on_redis := (DEL_enqueue_job_immediate redis restore true).

(** X13. On Redis, for a job id that has no hash in the store, the call
    raises [NoSuchJobError] before any write: nothing is registered,
    nothing is pushed, the store is unchanged. *)
Theorem enqueue_missing_job
    (db : gmap string value) (existing_job_id : string) (w : world) :
  store w = db ->
  trace w = [] ->
  holds_list db "rq:queue:default" ->
  db !! ("rq:job:" +:+ existing_job_id) = None ->
  fst (enqueue_on_redis existing_job_id w) = Raise (NoSuchJobError existing_job_id) /\
  store (snd (enqueue_on_redis existing_job_id w)) = db /\
  writes (trace (snd (enqueue_on_redis existing_job_id w))) = [].
Proof.
  intros Hw Ht Hd Hj.
  unfold DEL_enqueue_job_immediate, create_connection, job_ids, fetch,
    print, log_error, call, raise, ret, bind.
  change ("rq:queue:" +:+ "default") with "rq:queue:default".
  rewrite Hw, (redis_lrange_list _ _ Hd). cbn [store fst snd].
  assert (Hg : redis (HGETALL ("rq:job:" +:+ existing_job_id)) db = (Map ∅, db))
    by (unfold redis; now rewrite Hj).
  rewrite Hg. rewrite bool_decide_true by reflexivity.
  cbn [store trace fst snd]. rewrite Ht.
  repeat split; reflexivity.
Qed.

End DispatcherOnRedisMore.

(** ** The dispatcher on the connection it opens *)
Section DispatcherAtFetch.

Import Rq.

Abbreviation enqueue_decoded :=
  (DEL_enqueue_job_immediate redis restore_decoded true).

Lemma redis_read_only (c : command) (db : gmap string value) :
  is_write c = false -> snd (redis c db) = db.
Proof.
  destruct c as [key | key | key member | key item]; try discriminate;
    intros _; simpl; destruct (db !! key) as [[s | l | h] |]; reflexivity.
Qed.

Lemma writes_read (l : list (command * reply)) (c : command) (r : reply) :
  is_write c = false -> writes (l ++ [(c, r)]) = writes l.
Proof.
  intros H. unfold writes. rewrite map_app, filter_app. simpl.
  rewrite filter_cons_False by (simpl; congruence).
  rewrite filter_nil. apply app_nil_r.
Qed.

Lemma restore_decoded_raises (job_id : string) (h : gmap string string) :
  restore_decoded job_id h = Raise (NoSuchJobError job_id) \/
  restore_decoded job_id h = Raise TypeError.
Proof. unfold restore_decoded. destruct (h !! "data"); auto. Qed.

(** X11. On Redis, through the connection that [create_connection]
    opens, the call never gets past [Job.fetch]: whatever the store holds
    and whatever the job id, it raises, the exception is not an
    [IOError], no write is sent and the store is left as it was. Nothing
    is registered and nothing is pushed. *)
Theorem enqueue_stops_at_fetch (existing_job_id : string) (w : world) :
  let out := enqueue_decoded existing_job_id w in
  is_ok (fst out) = false /\
  (forall x, fst out <> Raise (IOError x)) /\
  writes (trace (snd out)) = writes (trace w) /\
  store (snd out) = store w.
Proof.
  unfold DEL_enqueue_job_immediate, create_connection, job_ids, fetch,
    print, log_error, call, raise, ret, bind.
  change ("rq:queue:" +:+ "default") with "rq:queue:default".
  pose proof (redis_read_only (LRANGE "rq:queue:default") (store w) eq_refl) as H1.
  destruct (redis (LRANGE "rq:queue:default") (store w)) as [r1 s1].
  cbn [snd] in H1. subst s1.
  destruct r1 as [n | l | h0 | msg]; cbn [store trace fst snd];
    try (pose proof (redis_read_only (HGETALL ("rq:job:" +:+ existing_job_id))
                       (store w) eq_refl) as H2;
         destruct (redis (HGETALL ("rq:job:" +:+ existing_job_id)) (store w))
           as [r2 s2];
         cbn [snd] in H2; subst s2;
         destruct r2 as [n2 | l2 | h | msg2]; cbn [store trace fst snd];
         try (destruct (bool_decide (h = ∅));
              [| destruct (restore_decoded_raises existing_job_id h) as [-> | ->]]);
         cbn [store trace fst snd]);
    rewrite ?writes_read by reflexivity;
    (split; [reflexivity | split; [intros x; discriminate | split; reflexivity]]).
Qed.

End DispatcherAtFetch.

Section DispatcherOnRedisExamples.

Import Rq.

Lemma enqueue_missing_job_witness :
  fst (DEL_enqueue_job_immediate redis restore_decoded true "j9"
         (fresh_world db_known_queue))
  = Raise (NoSuchJobError "j9") /\
  store (snd (DEL_enqueue_job_immediate redis restore_decoded true "j9"
                (fresh_world db_known_queue))) = db_known_queue /\
  writes (trace (snd (DEL_enqueue_job_immediate redis restore_decoded true "j9"
                        (fresh_world db_known_queue)))) = [].
Proof.
  apply (enqueue_missing_job restore_decoded db_known_queue "j9"
           (fresh_world db_known_queue)).
  - reflexivity.
  - reflexivity.
  - right. exists ["j0"]. reflexivity.
  - reflexivity.
Defined.

End DispatcherOnRedisExamples.

(** ** The queue job record: identifiers and the clock *)
Section JobRecordMore.

Import Rq.

Context {σ DateTime Bytes RQJob : Type}.
Variable jobs_site_prefix : string.
Variable uuid4 : nat -> string.
Variable now_utc : nat -> result DateTime.

Abbreviation construct' :=
  (new_with_defaults (σ := σ) jobs_site_prefix uuid4 now_utc
     (Bytes := Bytes) (RQJob := RQJob)).

(** X15. Two records built one after the other have different job keys
    and different fully qualified keys, as long as the identifier
    generator does not repeat itself. *)
Theorem new_with_defaults_distinct_keys
    (w w1 w2 : world) (j1 j2 : RQJobWrapper DateTime Bytes RQJob) :
  (forall m n, uuid4 m = uuid4 n -> m = n) ->
  construct' w = (Ok j1, w1) -> construct' w1 = (Ok j2, w2) ->
  job_key j1 <> job_key j2 /\ fully_qualified_key j1 <> fully_qualified_key j2.
Proof.
  intros Hinj H1 H2.
  pose proof (new_with_defaults_fresh _ _ _ _ _ _ _ _ Hinj H1 H2) as Hne.
  split; [exact Hne |].
  revert H1 H2.
  unfold new_with_defaults, draw_uuid, read_clock, ret, bind. simpl.
  destruct (now_utc (ticks w)); [| discriminate].
  destruct (now_utc (S (ticks w))); [| discriminate].
  intros [= <- <-]. simpl.
  destruct (now_utc (S (S (ticks w)))); [| discriminate].
  destruct (now_utc (S (S (S (ticks w))))); [| discriminate].
  intros [= <- <-]. simpl in *. intros E. apply Hne. now injection E.
Qed.

(** X16. The constructor returns a record whenever the clock can be read
    twice; the creation time is the first reading and the heartbeat the
    second, so the two may differ. *)
Theorem new_with_defaults_reads_clock_twice
    (w : world) (t1 t2 : DateTime) :
  now_utc (ticks w) = Ok t1 -> now_utc (S (ticks w)) = Ok t2 ->
  exists job w', construct' w = (Ok job, w') /\
    created_at job = t1 /\ last_heartbeat job = t2 /\ ticks w' = S (S (ticks w)).
Proof.
  intros H1 H2. unfold new_with_defaults, draw_uuid, read_clock, ret, bind.
  simpl. rewrite H1, H2. eexists _, _. repeat split; reflexivity.
Qed.

End JobRecordMore.

Section JobRecordMoreExamples.

Import Rq.

Lemma sample_uuid_injective (m n : nat) : sample_uuid m = sample_uuid n -> m = n.
Proof.
  unfold sample_uuid. intros E.
  apply (inj (String.append "11f83e81-83ea-4df2-aa7e-cd12d8dec7")) in E.
  apply (inj pretty) in E. lia.
Qed.

Lemma new_with_defaults_distinct_keys_witness :
  exists (j1 j2 : RQJobWrapper Z unit unit) w1 w2,
    new_with_defaults "erp" sample_uuid sample_clock (fresh_world db_known_queue)
    = (Ok j1, w1) /\
    new_with_defaults "erp" sample_uuid sample_clock w1 = (Ok j2, w2) /\
    job_key j1 <> job_key j2 /\
    fully_qualified_key j1 <> fully_qualified_key j2.
Proof.
  eexists _, _, _, _.
  split; [lazy [new_with_defaults draw_uuid read_clock ret bind fresh_world
                sample_clock ticks drawn store trace printed logged];
          reflexivity |].
  split; [lazy [new_with_defaults draw_uuid read_clock ret bind fresh_world
                sample_clock ticks drawn store trace printed logged];
          reflexivity |].
  eapply (new_with_defaults_distinct_keys (σ := gmap string value)
            (Bytes := unit) (RQJob := unit) "erp" sample_uuid sample_clock
            (fresh_world db_known_queue) _ _ _ _ sample_uuid_injective);
    lazy [new_with_defaults draw_uuid read_clock ret bind fresh_world
          sample_clock ticks drawn store trace printed logged];
    reflexivity.
Defined.

Lemma new_with_defaults_reads_clock_twice_witness :
  exists (job : RQJobWrapper Z unit unit) w',
    new_with_defaults "erp" sample_uuid sample_clock (fresh_world db_known_queue)
    = (Ok job, w') /\
    created_at job = 1742662860%Z /\ last_heartbeat job = 1742662861%Z /\
    ticks w' = 2.
Proof.
  apply (new_with_defaults_reads_clock_twice (σ := gmap string value)
           (Bytes := unit) (RQJob := unit) "erp" sample_uuid sample_clock
           (fresh_world db_known_queue)); reflexivity.
Defined.

End JobRecordMoreExamples.

Section ConfigFacts.

Import Config.

Lemma every_app (p : ascii -> bool) (a b : string) :
  every p (a +:+ b) = every p a && every p b.
Proof.
  induction a as [|c a IH]; simpl; [reflexivity |].
  now rewrite IH, andb_assoc.
Qed.

Lemma quote_char_inert (c : ascii) : every url_inert (quote_char c) = true.
Proof.
  destruct c as [[] [] [] [] [] [] [] []]; vm_compute; reflexivity.
Qed.

Lemma quote_inert (s : string) : every url_inert (quote s) = true.
Proof.
  induction s as [|c s IH]; [reflexivity |].
  cbn [quote]. now rewrite every_app, quote_char_inert, IH.
Qed.

Variable d : gmap string setting.

(** What a returned connection string was made of. *)
Lemma connection_string_inv (url : string) :
  get_sql_connection_string d = Done url ->
  exists (u p t : string) (host port name : setting) (scheme : string),
    d !! "sql_user" = Some (SStr u) /\
    d !! "sql_password" = Some (SStr p) /\
    d !! "sql_host" = Some host /\
    d !! "sql_port" = Some port /\
    d !! "sql_database" = Some name /\
    d !! "sql_type" = Some (SStr t) /\
    ((lower t = "postgres" /\ scheme = "postgresql+asyncpg://") \/
     (lower t = "mariadb" /\ scheme = "mysql+asyncmy://")) /\
    url = scheme +:+ quote u +:+ ":" +:+ quote p +:+ "@" +:+ str_setting host
          +:+ ":" +:+ str_setting port +:+ "/" +:+ str_setting name.
Proof.
  unfold get_sql_connection_string, get_sql_type, get, quote_setting, obind.
  destruct (d !! "sql_user") as [[u| |]|]; try discriminate.
  destruct (d !! "sql_password") as [[p| |]|]; try discriminate.
  destruct (d !! "sql_host") as [host|]; try discriminate.
  destruct (d !! "sql_port") as [port|]; try discriminate.
  destruct (d !! "sql_database") as [name|]; try discriminate.
  destruct (d !! "sql_type") as [[t| |]|]; try discriminate.
  cbv zeta.
  destruct (String.eqb_spec (lower t) "postgres") as [E1|N1].
  - intros [= <-]. exists u, p, t, host, port, name, "postgresql+asyncpg://".
    repeat split; auto.
  - destruct (String.eqb_spec (lower t) "mariadb") as [E2|N2];
      [| discriminate].
    intros [= <-]. exists u, p, t, host, port, name, "mysql+asyncmy://".
    repeat split; auto.
Qed.

(** X17. A connection string that [get_sql_connection_string] returns
    is one of the two schemes followed by the quoted configured user, a
    colon, the quoted configured password and an at sign; the two quoted
    parts consist of characters that [urllib.parse.quote] leaves alone
    and of percent signs only, so a colon or an at sign of the
    configured user or password never reaches the string unescaped. *)
Theorem connection_string_credentials (u p url : string) :
  d !! "sql_user" = Some (SStr u) ->
  d !! "sql_password" = Some (SStr p) ->
  get_sql_connection_string d = Done url ->
  (exists scheme rest : string,
     (scheme = "postgresql+asyncpg://" \/ scheme = "mysql+asyncmy://") /\
     url = scheme +:+ quote u +:+ ":" +:+ quote p +:+ "@" +:+ rest) /\
  every url_inert (quote u) = true /\ every url_inert (quote p) = true /\
  url_inert ":" = false /\ url_inert "@" = false.
Proof.
  intros Hu Hp H.
  destruct (connection_string_inv url H)
    as (u' & p' & t & host & port & name & scheme &
        Hu' & Hp' & _ & _ & _ & _ & Hs & ->).
  rewrite Hu in Hu'. rewrite Hp in Hp'.
  injection Hu' as <-. injection Hp' as <-.
  split.
  - exists scheme,
      (str_setting host +:+ ":" +:+ str_setting port +:+ "/" +:+ str_setting name).
    split; [destruct Hs as [[_ ->] | [_ ->]]; auto | reflexivity].
  - repeat split; auto using quote_inert.
Qed.

(** X18. [get_sql_connection_string] returns exactly when the six
    settings are there, user and password are strings, and the type,
    lowercased, is [postgres] or [mariadb]; the result is the driver's
    scheme followed by the quoted user and password and the host, port and
    database as an f-string shows them. *)
Theorem connection_string_outcome (url : string) :
  get_sql_connection_string d = Done url <->
  exists (u p t : string) (host port name : setting) (scheme : string),
    d !! "sql_user" = Some (SStr u) /\
    d !! "sql_password" = Some (SStr p) /\
    d !! "sql_host" = Some host /\
    d !! "sql_port" = Some port /\
    d !! "sql_database" = Some name /\
    d !! "sql_type" = Some (SStr t) /\
    ((lower t = "postgres" /\ scheme = "postgresql+asyncpg://") \/
     (lower t = "mariadb" /\ scheme = "mysql+asyncmy://")) /\
    url = scheme +:+ quote u +:+ ":" +:+ quote p +:+ "@" +:+ str_setting host
          +:+ ":" +:+ str_setting port +:+ "/" +:+ str_setting name.
Proof.
  split; [apply connection_string_inv |].
  unfold get_sql_connection_string, get_sql_type, get, quote_setting, obind.
  intros (u & p & t & host & port & name & scheme &
          -> & -> & -> & -> & -> & -> & [[E ->] | [E ->]] & ->);
    cbv zeta; rewrite E; reflexivity.
Qed.

(** X19. A type that is neither of the two, whatever its case, is
    refused with a [ValueError] that names it in lower case, once the
    other five settings have been read. *)
Theorem connection_string_unsupported (u p t : string) (host port name : setting) :
  d !! "sql_user" = Some (SStr u) ->
  d !! "sql_password" = Some (SStr p) ->
  d !! "sql_host" = Some host ->
  d !! "sql_port" = Some port ->
  d !! "sql_database" = Some name ->
  d !! "sql_type" = Some (SStr t) ->
  lower t <> "postgres" -> lower t <> "mariadb" ->
  get_sql_connection_string d
  = Fails (Raised (ValueError ("Unsupported sql_type: " +:+ lower t +:+
                               ". Supported types: 'postgres', 'mariadb'"))).
Proof.
  intros Hu Hp Hh Hport Hn Ht N1 N2.
  unfold get_sql_connection_string, get_sql_type, get, quote_setting, obind.
  rewrite Hu, Hp, Hh, Hport, Hn, Ht. cbv zeta.
  destruct (String.eqb_spec (lower t) "postgres"); [contradiction |].
  destruct (String.eqb_spec (lower t) "mariadb"); [contradiction |].
  reflexivity.
Qed.

End ConfigFacts.

Section ConfigExamples.

Import Config.

(** The type is matched without regard to case, and the password is
    escaped. *)
Example sample_connection_string :
  get_sql_connection_string sample_settings
  = Done "postgresql+asyncpg://frappe:p%40ss%3Aword/1@localhost:5432/erp".
Proof. vm_compute. reflexivity. Qed.

Lemma connection_string_credentials_witness :
  (exists scheme rest : string,
     (scheme = "postgresql+asyncpg://" \/ scheme = "mysql+asyncmy://") /\
     "postgresql+asyncpg://frappe:p%40ss%3Aword/1@localhost:5432/erp"
     = scheme +:+ quote "frappe" +:+ ":" +:+ quote "p@ss:word/1" +:+ "@" +:+ rest) /\
  every url_inert (quote "frappe") = true /\
  every url_inert (quote "p@ss:word/1") = true /\
  url_inert ":" = false /\ url_inert "@" = false.
Proof.
  apply (connection_string_credentials sample_settings "frappe" "p@ss:word/1").
  - reflexivity.
  - reflexivity.
  - vm_compute. reflexivity.
Defined.

Lemma connection_string_outcome_witness :
  exists (u p t : string) (host port name : setting) (scheme : string),
    sample_settings !! "sql_user" = Some (SStr u) /\
    sample_settings !! "sql_password" = Some (SStr p) /\
    sample_settings !! "sql_host" = Some host /\
    sample_settings !! "sql_port" = Some port /\
    sample_settings !! "sql_database" = Some name /\
    sample_settings !! "sql_type" = Some (SStr t) /\
    ((lower t = "postgres" /\ scheme = "postgresql+asyncpg://") \/
     (lower t = "mariadb" /\ scheme = "mysql+asyncmy://")) /\
    "postgresql+asyncpg://frappe:p%40ss%3Aword/1@localhost:5432/erp"
    = scheme +:+ quote u +:+ ":" +:+ quote p +:+ "@" +:+ str_setting host
      +:+ ":" +:+ str_setting port +:+ "/" +:+ str_setting name.
Proof.
  apply (proj1 (connection_string_outcome sample_settings
                  "postgresql+asyncpg://frappe:p%40ss%3Aword/1@localhost:5432/erp")).
  vm_compute. reflexivity.
Defined.

Lemma connection_string_unsupported_witness :
  get_sql_connection_string (<["sql_type" := SStr "SQLite"]> sample_settings)
  = Fails (Raised (ValueError
      "Unsupported sql_type: sqlite. Supported types: 'postgres', 'mariadb'")).
Proof.
  apply (connection_string_unsupported
           (<["sql_type" := SStr "SQLite"]> sample_settings)
           "frappe" "p@ss:word/1" "SQLite"
           (SStr "localhost") (SInt 5432) (SStr "erp"));
    (reflexivity || (vm_compute; discriminate)).
Defined.

End ConfigExamples.
